(** * sensor-ina219: the sampling-and-logging engine of [main.py]

    A shallow embedding of [src/main.py] and the properties of its
    resume identifier, its CSV log and its polling loop.

    Modelling boundary.
    - Text is ASCII: a file's content, a label and a CSV field are
      [string]s of 8-bit characters.  Python's [int()] also accepts
      non-ASCII decimal digits and white space; such text is outside the
      model.
    - Integers are unbounded ([Z]), as Python's are.  The interpreter's
      configurable limit on the length of a decimal literal is a resource
      limit of the run-time, not of the program, and is left out.
    - Floating-point values are opaque: the program only stores them,
      passes them to [datetime.fromtimestamp] and lets [csv.writer] render
      them.  Their type and these two library functions are parameters of
      the development.
    - [print] writes to the console only; it changes neither the log file
      nor the exit status and is not modelled.
    - Files are opened the way a POSIX host does: what is written is what
      is stored.  Only regular files are tracked; [mkdir] and the
      normalisation [pathlib] applies to a path are left out.
    - The driver's constructor and [configure] succeed.  What the sensors
      and the user do during the run is a trace of events, one per pass
      of the [for] body; one interrupt ends the run. *)

From Stdlib Require Import ZArith Ascii String List Bool Lia.
From Stdlib Require Import Decimal DecimalString DecimalZ.
From stdpp Require Import base option list gmap strings sorting.

Local Open Scope string_scope.
Local Open Scope Z_scope.

(** Appending to a string that starts with a known character computes. *)
Local Arguments String.append !s1 s2.

(** ** Python run-time: exceptions and results *)

Module Py.

(** The exceptions the program can meet. *)
Inductive exn : Type :=
| UnboundLocalError (var : string)
| ValueError
| KeyboardInterrupt
| DeviceRangeError (msg : string).

(** A call either returns a value or raises. *)
Inductive result (A : Type) : Type :=
| Ok (a : A)
| Raise (e : exn).
Arguments Ok {A} a.
Arguments Raise {A} e.

Definition bind {A B : Type} (r : result A) (k : A -> result B) : result B :=
  match r with
  | Ok a => k a
  | Raise e => Raise e
  end.

Definition LF : ascii := "010"%char.
Definition CR : ascii := "013"%char.
Definition nl : string := String LF EmptyString.

(** *** Text files

    Iterating a file opened with [mode="r"] yields its lines.  With the
    default [newline=None] each of LF, CR and CR LF ends a line and is
    handed to the program as LF. *)
Fixpoint readlines (s : string) : list string :=
  match s with
  | EmptyString => []
  | String c s' =>
      if Ascii.eqb c LF then nl :: readlines s'
      else if Ascii.eqb c CR then
        match s' with
        | EmptyString => [nl]
        | String c' s'' =>
            if Ascii.eqb c' LF then nl :: readlines s'' else nl :: readlines s'
        end
      else
        match readlines s' with
        | [] => [String c EmptyString]
        | l :: ls => String c l :: ls
        end
  end.

(** *** [str.split(sep)] for a one-character separator *)
Fixpoint split (sep : ascii) (s : string) : list string :=
  match s with
  | EmptyString => [EmptyString]
  | String c s' =>
      if Ascii.eqb c sep then EmptyString :: split sep s'
      else
        match split sep s' with
        | [] => [String c EmptyString]
        | f :: fs => String c f :: fs
        end
  end.

(** *** [int(s)] and [int(s, 16)]

    CPython's [PyLong_FromString]: white space, an optional sign, for base
    16 an optional [0x] prefix, then digits in which single underscores
    may separate digits, then white space up to the end. *)
Definition is_space (c : ascii) : bool :=
  let n := nat_of_ascii c in
  ((9 <=? n)%nat && (n <=? 13)%nat) || (n =? 32)%nat.

Definition digit_value (c : ascii) : option Z :=
  let n := Z.of_nat (nat_of_ascii c) in
  if (48 <=? n) && (n <=? 57) then Some (n - 48)
  else if (97 <=? n) && (n <=? 122) then Some (n - 87)
  else if (65 <=? n) && (n <=? 90) then Some (n - 55)
  else None.

Fixpoint skip_space (s : string) : string :=
  match s with
  | String c s' => if is_space c then skip_space s' else s
  | EmptyString => EmptyString
  end.

Definition underscore : ascii := "_"%char.

(** The digit loop: [prev] is the character consumed last.  It stops at
    the first character that is neither a digit of the base nor an
    underscore and returns the value with the unread rest. *)
Fixpoint scan_digits (base : Z) (s : string) (prev : ascii) (acc : Z)
  : option (Z * string) :=
  match s with
  | EmptyString =>
      if Ascii.eqb prev underscore then None else Some (acc, EmptyString)
  | String c s' =>
      if Ascii.eqb c underscore then
        if Ascii.eqb prev underscore then None
        else scan_digits base s' c acc
      else
        match digit_value c with
        | Some d =>
            if d <? base then scan_digits base s' c (acc * base + d)
            else if Ascii.eqb prev underscore then None else Some (acc, s)
        | None =>
            if Ascii.eqb prev underscore then None else Some (acc, s)
        end
  end.

Definition take_sign (s : string) : Z * string :=
  match s with
  | String "+" s' => (1, s')
  | String "-" s' => (-1, s')
  | _ => (1, s)
  end.

(** For base 16 a leading [0x] or [0X] is skipped, and one underscore may
    follow it. *)
Definition skip_prefix (base : Z) (s : string) : string :=
  if base =? 16 then
    match s with
    | String "0" (String "x" s') | String "0" (String "X" s') =>
        match s' with
        | String "_" s'' => s''
        | _ => s'
        end
    | _ => s
    end
  else s.

Definition int_of_str (base : Z) (s : string) : option Z :=
  let '(sign, s1) := take_sign (skip_space s) in
  let start := skip_prefix base s1 in
  match start with
  | String "_" _ => None
  | _ =>
      match scan_digits base start "000"%char 0 with
      | None => None
      | Some (v, rest) =>
          if String.eqb rest start then None
          else
            match skip_space rest with
            | EmptyString => Some (sign * v)
            | String _ _ => None
            end
      end
  end.

Definition int (s : string) : result Z :=
  match int_of_str 10 s with
  | Some v => Ok v
  | None => Raise ValueError
  end.

Definition int16 (s : string) : result Z :=
  match int_of_str 16 s with
  | Some v => Ok v
  | None => Raise ValueError
  end.

(** *** [str(n)] for an integer *)
Definition str (n : Z) : string := NilZero.string_of_int (Z.to_int n).

End Py.

(** ** [csv.writer] with the default dialect *)

Module Csv.

Definition delimiter : ascii := ","%char.
Definition quotechar : ascii := "034"%char.
Definition lineterminator : string := String Py.CR (String Py.LF EmptyString).

(** A character that makes [QUOTE_MINIMAL] quote the field. *)
Definition special (c : ascii) : bool :=
  Ascii.eqb c delimiter || Ascii.eqb c quotechar
  || Ascii.eqb c Py.CR || Ascii.eqb c Py.LF.

Fixpoint has_special (s : string) : bool :=
  match s with
  | EmptyString => false
  | String c s' => special c || has_special s'
  end.

(** [doublequote]: a quote character inside a field is written twice. *)
Fixpoint escape (s : string) : string :=
  match s with
  | EmptyString => EmptyString
  | String c s' =>
      if Ascii.eqb c quotechar then String c (String c (escape s'))
      else String c (escape s')
  end.

Definition join_append (field : string) : string :=
  if has_special field
  then String quotechar (escape field) +:+ String quotechar EmptyString
  else field.

Fixpoint join (fields : list string) : string :=
  match fields with
  | [] => EmptyString
  | [f] => join_append f
  | f :: fs => join_append f +:+ String delimiter (join fs)
  end.

(** [writerow]: the text one call appends to the file.  A record that
    would be empty although it has a field is written as a pair of
    quotes. *)
Definition writerow (fields : list string) : string :=
  match fields, join fields with
  | _ :: _, EmptyString =>
      String quotechar (String quotechar EmptyString) +:+ lineterminator
  | _, rec => rec +:+ lineterminator
  end.

End Csv.

(** ** [datetime] and [strftime] *)

(** A [datetime.datetime] value, broken down. *)
Record datetime : Type := Datetime {
  year : Z; month : Z; day : Z;
  hour : Z; minute : Z; second : Z; microsecond : Z
}.

(** The class invariant of [datetime], with the year of a present-day
    clock (four digits). *)
Definition datetime_ok (d : datetime) : Prop :=
  1000 <= year d <= 9999 /\ 1 <= month d <= 12 /\ 1 <= day d <= 31 /\
  0 <= hour d <= 23 /\ 0 <= minute d <= 59 /\ 0 <= second d <= 59 /\
  0 <= microsecond d <= 999999.

Definition digit_char (d : Z) : ascii := ascii_of_nat (48 + Z.to_nat (d mod 10)).

(** The [width] low decimal digits of [n], most significant first: what
    the zero-padded directives [%m %d %H %M %S %f] print for a field of a
    [datetime]. *)
Fixpoint zero_padded (width : nat) (n : Z) : string :=
  match width with
  | O => EmptyString
  | S w => zero_padded w (n / 10) +:+ String (digit_char n) EmptyString
  end.

(** [dt.strftime("%Y-%m-%dT%H:%M:%S.%f")]; [%Y] is the year in decimal as
    the C library prints it. *)
Definition strftime (d : datetime) : string :=
  Py.str (year d) +:+ "-" +:+ zero_padded 2 (month d) +:+ "-"
  +:+ zero_padded 2 (day d) +:+ "T" +:+ zero_padded 2 (hour d) +:+ ":"
  +:+ zero_padded 2 (minute d) +:+ ":" +:+ zero_padded 2 (second d) +:+ "."
  +:+ zero_padded 6 (microsecond d).

(** ** The file system and the sensor driver *)

(** The regular files that exist, by path, with their content.
    Directories are left out: [mkdir] creates none of these files. *)
Abbreviation FS := (gmap string string).

(** [open(mode="w")] followed by a write: the file holds the text alone. *)
Definition write_file (path text : string) (fs : FS) : FS :=
  <[path := text]> fs.

(** [open(mode="a")] followed by a write: the file is created when it is
    missing and the text goes to its end. *)
Definition append_file (path text : string) (fs : FS) : FS :=
  <[path := default EmptyString (fs !! path) +:+ text]> fs.

(** An [INA219] driver object after [create_ina]: the constructor's
    [address] and [busnum] and the [addr] attribute the program adds (the
    shunt is the constant default 0.1 ohm). *)
Record INA219 : Type := Build_INA219 {
  busnum : Z;
  address : Z;
  addr : Z
}.

(** An insertion-ordered [dict] keyed by strings: storing under a key
    already present replaces the value where the key stands. *)
Fixpoint dict_set {V : Type} (k : string) (v : V) (d : list (string * V))
  : list (string * V) :=
  match d with
  | [] => [(k, v)]
  | (k', v') :: d' =>
      if String.eqb k' k then (k', v) :: d'
      else (k', v') :: dict_set k v d'
  end.

(** ** The program *)

(** [get_test_filepath]: the path of the log file below [output] (the
    directory itself is not tracked). *)
Definition get_test_filepath (output testfile : string) : string :=
  output +:+ "/" +:+ testfile.

(** [get_test_id] *)
Definition get_test_id (fs : FS) (testpath : string) : Py.result Z :=
  match fs !! testpath with
  | None => Py.Ok 1
  | Some content =>
      match last (Py.readlines content) with
      | None => Py.Raise (Py.UnboundLocalError "line")
      | Some last_row =>
          match Py.split "," last_row with
          | rid :: _ => Py.bind (Py.int rid) (fun n => Py.Ok (n + 1))
          | [] => Py.Raise Py.ValueError
          end
      end
  end.

(** [create_ina] *)
Definition create_ina (i2c_address : Z) : INA219 :=
  {| busnum := 1; address := i2c_address; addr := i2c_address |}.

(** [create_ina_map]: the dict comprehension, entry by entry. *)
Fixpoint create_ina_map_from (tests : list (string * string))
    (d : list (string * INA219)) : Py.result (list (string * INA219)) :=
  match tests with
  | [] => Py.Ok d
  | (test, i2c_addr) :: tests' =>
      Py.bind (Py.int16 i2c_addr)
        (fun a => create_ina_map_from tests' (dict_set test (create_ina a) d))
  end.

Definition create_ina_map (tests : list (string * string))
  : Py.result (list (string * INA219)) :=
  create_ina_map_from tests [].

Definition csv_header : list string :=
  [ "test id"; "sensor label"; "timestamp epoch sec"; "timestamp datetime";
    "power mW"; "supply voltage V"; "current mA" ].

(** What the environment does at one pass of the [for] body: the clock
    and the three reads return, a read raises [DeviceRangeError], or the
    user's interrupt is delivered before the sample is appended. *)
Inductive event (float : Type) : Type :=
| Reading (ts power supply_volt current : float)
| RangeError (msg : string)
| Interrupt.
Arguments Reading {float} ts power supply_volt current.
Arguments RangeError {float} msg.
Arguments Interrupt {float}.

(** The tuple [(i, sensor_label, ts, dt, power, supply_volt, current)]. *)
Record sample (float : Type) : Type := Sample {
  test_id : Z;
  sensor_label : string;
  ts : float;
  dt : string;
  power : float;
  supply_volt : float;
  current : float
}.
Arguments Sample {float}.
Arguments test_id {float}.
Arguments sensor_label {float}.
Arguments ts {float}.
Arguments dt {float}.
Arguments power {float}.
Arguments supply_volt {float}.
Arguments current {float}.

(** How one pass over the registry ends. *)
Inductive round_result (float : Type) : Type :=
| RoundDone (samples : list (sample float)) (env : list (event float))
| RoundRaised (e : Py.exn) (samples : list (sample float))
| RoundPending (samples : list (sample float)).
Arguments RoundDone {float}.
Arguments RoundRaised {float}.
Arguments RoundPending {float}.

(** How the [while True] loop ends, with the values of [i] and [samples]
    at that point: an exception leaves it, the trace ends while it waits
    for a sensor, or the bound on rounds is reached. *)
Inductive loop_result (float : Type) : Type :=
| Raised (e : Py.exn) (i : Z) (samples : list (sample float))
| Polling (i : Z) (samples : list (sample float))
| Spinning (i : Z) (samples : list (sample float)).
Arguments Raised {float}.
Arguments Polling {float}.
Arguments Spinning {float}.

(** How a run of [main] ends. *)
Inductive outcome (float : Type) : Type :=
| Exit (status : Z) (fs : FS)
| Uncaught (e : Py.exn) (fs : FS)
| UsageError
| StillRunning (i : Z) (samples : list (sample float)) (fs : FS).
Arguments Exit {float}.
Arguments Uncaught {float}.
Arguments UsageError {float}.
Arguments StillRunning {float}.

Section Collector.

(** Floating-point numbers, their [repr] and the host's
    [datetime.fromtimestamp]. *)
Variable float : Type.
Variable repr : float -> string.
Variable fromtimestamp : float -> datetime.

(** [convert_to_datetime] *)
Definition convert_to_datetime (ts : float) : string :=
  strftime (fromtimestamp ts).

(** The text of each field as [csv.writer] renders it: [str] for the
    integer, [repr] for a float, a string as it is. *)
Definition cells (s : sample float) : list string :=
  [ Py.str (test_id s); sensor_label s; repr (ts s); dt s;
    repr (power s); repr (supply_volt s); repr (current s) ].

(** [write_to_csv]: the header goes to a file that does not exist yet;
    the rows are appended in either case. *)
Definition write_to_csv (csv_header : list string)
    (samples : list (sample float)) (testpath : string) (fs : FS) : FS :=
  let fs1 :=
    match fs !! testpath with
    | None => write_file testpath (Csv.writerow csv_header) fs
    | Some _ => fs
    end in
  fold_left (fun f s => append_file testpath (Csv.writerow (cells s)) f)
    samples (append_file testpath EmptyString fs1).

(** The [for] loop over [ina_map.items()]: one event per sensor. *)
Fixpoint poll_round (items : list (string * INA219)) (i : Z)
    (samples : list (sample float)) (env : list (event float))
  : round_result float :=
  match items with
  | [] => RoundDone samples env
  | (sensor_label, ina) :: items' =>
      match env with
      | [] => RoundPending samples
      | Interrupt :: _ => RoundRaised Py.KeyboardInterrupt samples
      | RangeError msg :: _ => RoundRaised (Py.DeviceRangeError msg) samples
      | Reading ts power supply_volt current :: env' =>
          poll_round items' i
            (samples ++
               [Sample i sensor_label ts (convert_to_datetime ts)
                  power supply_volt current])
            env'
      end
  end.

(** The [while True] loop: [fuel] bounds the number of rounds. *)
Fixpoint poll_loop (fuel : nat) (ina_map : list (string * INA219)) (i : Z)
    (samples : list (sample float)) (env : list (event float))
  : loop_result float :=
  match fuel with
  | O => Spinning i samples
  | S fuel' =>
      match poll_round ina_map i samples env with
      | RoundDone samples' env' =>
          poll_loop fuel' ina_map (i + 1) samples' env'
      | RoundRaised e samples' => Raised e i samples'
      | RoundPending samples' => Polling i samples'
      end
  end.

(** [main].  A command line without [--tests] is rejected by the option
    parser; an exception no handler names leaves the program uncaught. *)
Definition main (filename : string) (tests : list (string * string))
    (verbose : bool) (output : string) (fs : FS) (env : list (event float))
  : outcome float :=
  match tests with
  | [] => UsageError
  | _ :: _ =>
      match create_ina_map tests with
      | Py.Raise e => Uncaught e fs
      | Py.Ok ina_map =>
          let testpath := get_test_filepath output (filename +:+ ".csv") in
          match get_test_id fs testpath with
          | Py.Raise e => Uncaught e fs
          | Py.Ok i =>
              match poll_loop (S (length env)) ina_map i [] env with
              | Raised Py.KeyboardInterrupt _ samples =>
                  Exit 0 (write_to_csv csv_header samples testpath fs)
              | Raised (Py.DeviceRangeError _) _ _ => Exit 1 fs
              | Raised e _ _ => Uncaught e fs
              | Polling i' samples => StillRunning i' samples fs
              | Spinning i' samples => StillRunning i' samples fs
              end
          end
      end
  end.

End Collector.

Arguments convert_to_datetime {float} fromtimestamp ts.
Arguments cells {float} repr s.
Arguments write_to_csv {float} repr csv_header samples testpath fs.
Arguments poll_round {float} fromtimestamp items i samples env.
Arguments poll_loop {float} fromtimestamp fuel ina_map i samples env.
Arguments main {float} repr fromtimestamp filename tests verbose output fs env.

(** ** Vocabulary of the statements *)

Definition is_newline (c : ascii) : bool :=
  Ascii.eqb c Py.LF || Ascii.eqb c Py.CR.

(** Every character of [s] satisfies [P]. *)
Fixpoint all_chars (P : ascii -> bool) (s : string) : bool :=
  match s with
  | EmptyString => true
  | String c s' => P c && all_chars P s'
  end.

(** A text without line break. *)
Definition one_line (s : string) : bool :=
  all_chars (fun c => negb (is_newline c)) s.

(** A text made of whole lines: empty, or ending in a line break. *)
Fixpoint complete_lines (s : string) : bool :=
  match s with
  | EmptyString => true
  | String c s' =>
      match s' with
      | EmptyString => is_newline c
      | String _ _ => complete_lines s'
      end
  end.

(** The ways a file's last line can end: not at all, LF, CR, CR LF. *)
Definition is_line_end (eol : string) : bool :=
  String.eqb eol EmptyString || String.eqb eol Py.nl
  || String.eqb eol (String Py.CR EmptyString)
  || String.eqb eol Csv.lineterminator.

(** The characters of an integer written by [str]. *)
Definition is_int_char (c : ascii) : bool :=
  Ascii.eqb c "-" ||
  (let n := nat_of_ascii c in (48 <=? n)%nat && (n <=? 57)%nat).

(** The line break as the program reads it. *)
Definition as_read (eol : string) : string :=
  match eol with
  | EmptyString => EmptyString
  | String _ _ => Py.nl
  end.

(** *** The registry *)

(** Looking a key up in an insertion-ordered dict. *)
Fixpoint dict_get {V : Type} (k : string) (d : list (string * V)) : option V :=
  match d with
  | [] => None
  | (k', v) :: d' => if String.eqb k' k then Some v else dict_get k d'
  end.

(** The address text of the last entry configured for a label. *)
Definition last_address (label : string) (tests : list (string * string))
  : option string :=
  snd <$> last (filter (fun t => fst t = label) tests).

(** *** The timestamp format *)

Definition is_digit (c : ascii) : bool :=
  let n := nat_of_ascii c in (48 <=? n)%nat && (n <=? 57)%nat.

(** The letters that stand for one decimal digit in a format such as
    [YYYY-MM-DD]. *)
Definition placeholder (p : ascii) : bool :=
  Ascii.eqb p "Y" || Ascii.eqb p "M" || Ascii.eqb p "D"
  || Ascii.eqb p "H" || Ascii.eqb p "S" || Ascii.eqb p "f".

(** [s] has the format [fmt]: a digit where [fmt] has a placeholder, the
    same character elsewhere, and the same length. *)
Fixpoint has_format (fmt s : string) : bool :=
  match fmt, s with
  | EmptyString, EmptyString => true
  | String p fmt', String c s' =>
      (if placeholder p then is_digit c else Ascii.eqb p c)
      && has_format fmt' s'
  | _, _ => false
  end.

Definition iso_format : string := "YYYY-MM-DDTHH:MM:SS.ffffff".

(** *** Reading a formatted time back *)

(** The value of a decimal digit character. *)
Definition digit_of (c : ascii) : Z := Z.of_nat (nat_of_ascii c) - 48.

(** The number a run of decimal digits denotes. *)
Definition number (digits : list ascii) : Z :=
  fold_left (fun acc c => acc * 10 + digit_of c) digits 0.

(** A text in the format [YYYY-MM-DDTHH:MM:SS.ffffff], read field by
    field: year, month, day, hour, minute, second, microsecond. *)
Definition read_iso (s : string) : option datetime :=
  if has_format iso_format s then
    match list_ascii_of_string s with
    | [y1; y2; y3; y4; _; m1; m2; _; d1; d2; _; h1; h2; _; n1; n2; _;
       s1; s2; _; u1; u2; u3; u4; u5; u6] =>
        Some (Datetime (number [y1; y2; y3; y4]) (number [m1; m2])
                (number [d1; d2]) (number [h1; h2]) (number [n1; n2])
                (number [s1; s2]) (number [u1; u2; u3; u4; u5; u6]))
    | _ => None
    end
  else None.

(** *** The identifiers of whole rounds *)

(** The identifiers of [n] rounds of [count] samples, the first round
    with identifier [i]: [count] times [i], then [count] times [i + 1],
    and so on. *)
Fixpoint round_ids (count n : nat) (i : Z) : list Z :=
  match n with
  | O => []
  | S n' => (replicate count i ++ round_ids count n' (i + 1))%list
  end.

(** *** Decimal integers

    The text [int()] accepts in base 10, as the language reference gives
    it: white space, an optional sign, decimal digits in which single
    underscores may stand between two digits, white space. *)

(** What may follow a digit inside the digits. *)
Inductive digits_tail : string -> Prop :=
| digits_end : digits_tail EmptyString
| digits_digit (c : ascii) (s : string) :
    is_digit c = true -> digits_tail s -> digits_tail (String c s)
| digits_sep (c : ascii) (s : string) :
    is_digit c = true -> digits_tail s ->
    digits_tail (String "_" (String c s)).

Inductive digit_group : string -> Prop :=
| digits_start (c : ascii) (s : string) :
    is_digit c = true -> digits_tail s -> digit_group (String c s).

Inductive int_literal : string -> Prop :=
| int_lit (lead sign body trail : string) :
    all_chars Py.is_space lead = true ->
    sign = EmptyString \/ sign = "+" \/ sign = "-" ->
    digit_group body ->
    all_chars Py.is_space trail = true ->
    int_literal (lead +:+ sign +:+ body +:+ trail).

(** *** Traces of a session *)

Section Traces.

Variable float : Type.
Variable fromtimestamp : float -> datetime.

(** What one pass of the [for] body obtained: the clock, then power,
    supply voltage and current. *)
Definition reading : Type := float * float * float * float.

Definition to_event (r : reading) : event float :=
  let '(ts, power, supply_volt, current) := r in
  Reading ts power supply_volt current.

(** The sample the body appends for a registry entry and a reading. *)
Definition sample_of (i : Z) (item : string * INA219) (r : reading)
  : sample float :=
  let '(ts, power, supply_volt, current) := r in
  Sample i (fst item) ts (convert_to_datetime fromtimestamp ts)
    power supply_volt current.

(** The samples of a round, or of the readings a round got to. *)
Definition round_samples (items : list (string * INA219)) (i : Z)
    (rs : list reading) : list (sample float) :=
  zip_with (sample_of i) items rs.

(** The samples of consecutive rounds, the first with identifier [i]. *)
Fixpoint rounds_samples (items : list (string * INA219)) (i : Z)
    (rounds : list (list reading)) : list (sample float) :=
  match rounds with
  | [] => []
  | r :: rounds' =>
      (round_samples items i r ++ rounds_samples items (i + 1) rounds')%list
  end.

Definition events_of_rounds (rounds : list (list reading))
  : list (event float) :=
  concat (map (map to_event) rounds).

(** A trace stops a round when it ends or when its next event is not a
    reading. *)
Definition stops (tail : list (event float)) : bool :=
  match tail with
  | Reading _ _ _ _ :: _ => false
  | _ => true
  end.

Definition round_stop (tail : list (event float))
    (samples : list (sample float)) : round_result float :=
  match tail with
  | Interrupt :: _ => RoundRaised Py.KeyboardInterrupt samples
  | RangeError msg :: _ => RoundRaised (Py.DeviceRangeError msg) samples
  | _ => RoundPending samples
  end.

Definition loop_stop (tail : list (event float)) (i : Z)
    (samples : list (sample float)) : loop_result float :=
  match tail with
  | Interrupt :: _ => Raised Py.KeyboardInterrupt i samples
  | RangeError msg :: _ => Raised (Py.DeviceRangeError msg) i samples
  | _ => Polling i samples
  end.

End Traces.

Arguments reading float : clear implicits.
Arguments to_event {float} r.
Arguments sample_of {float} fromtimestamp i item r.
Arguments round_samples {float} fromtimestamp items i rs.
Arguments rounds_samples {float} fromtimestamp items i rounds.
Arguments events_of_rounds {float} rounds.
Arguments stops {float} tail.
Arguments round_stop {float} tail samples.
Arguments loop_stop {float} tail i samples.

(** *** The text of the log *)

(** The rows [csv.writer] produces for a list of samples, in order. *)
Fixpoint rows_text {float : Type} (repr : float -> string)
    (samples : list (sample float)) : string :=
  match samples with
  | [] => EmptyString
  | s :: samples' => Csv.writerow (cells repr s) +:+ rows_text repr samples'
  end.

(** The content of the log after a flush: what was there, or the header
    row for a file that did not exist, followed by the rows. *)
Definition flushed {float : Type} (repr : float -> string)
    (csv_header : list string) (samples : list (sample float))
    (testpath : string) (fs : FS) : string :=
  default (Csv.writerow csv_header) (fs !! testpath) +:+ rows_text repr samples.

(** The path [main] logs to. *)
Definition log_path (output filename : string) : string :=
  get_test_filepath output (filename +:+ ".csv").

(** The value the digit loop accumulates over a digit list. *)
Fixpoint uint_value (d : Decimal.uint) (acc : Z) : Z :=
  match d with
  | Nil => acc
  | D0 d => uint_value d (acc * 10 + 0)
  | D1 d => uint_value d (acc * 10 + 1)
  | D2 d => uint_value d (acc * 10 + 2)
  | D3 d => uint_value d (acc * 10 + 3)
  | D4 d => uint_value d (acc * 10 + 4)
  | D5 d => uint_value d (acc * 10 + 5)
  | D6 d => uint_value d (acc * 10 + 6)
  | D7 d => uint_value d (acc * 10 + 7)
  | D8 d => uint_value d (acc * 10 + 8)
  | D9 d => uint_value d (acc * 10 + 9)
  end.

(** The values of [i] and [samples] a loop result carries. *)
Definition loop_state {float : Type} (r : loop_result float)
  : Z * list (sample float) :=
  match r with
  | Raised _ i samples | Polling i samples | Spinning i samples => (i, samples)
  end.

(** The buffer a pass over the registry ends with. *)
Definition round_buffer {float : Type} (r : round_result float)
  : list (sample float) :=
  match r with
  | RoundDone samples _ | RoundRaised _ samples | RoundPending samples => samples
  end.

(** *** Samples that fit on a line *)

(** No text field of the sample, as the writer renders it, holds a line
    break. *)
Definition plain_sample {float : Type} (repr : float -> string)
    (s : sample float) : bool :=
  one_line (sensor_label s) && one_line (repr (ts s)) && one_line (dt s)
  && one_line (repr (power s)) && one_line (repr (supply_volt s))
  && one_line (repr (current s)).

(** The labels of a list in the order in which they first occur. *)
Fixpoint first_occurrences (l : list string) : list string :=
  match l with
  | [] => []
  | x :: l' => x :: filter (fun y => y <> x) (first_occurrences l')
  end.

(** ** A bench to run the program on

    Time counted in microseconds since local midnight of 2024-01-01, and
    measurements in thousandths. *)
Module Bench.

Definition repr (x : Z) : string :=
  Py.str (x / 1000) +:+ "." +:+ zero_padded 3 (x mod 1000).

Definition fromtimestamp (us : Z) : datetime :=
  Datetime 2024 1 1 (us / 3600000000 mod 24) (us / 60000000 mod 60)
    (us / 1000000 mod 60) (us mod 1000000).

Definition run := main repr fromtimestamp.

Definition two_sensors : list (string * string) := [("a", "0x40"); ("b", "0x41")].

Definition registry : list (string * INA219) :=
  [("a", create_ina 64); ("b", create_ina 65)].

Definition r1 : reading Z := (1000000, 500, 3300, 150).
Definition r2 : reading Z := (1000500, 600, 3301, 151).
Definition r3 : reading Z := (2000000, 510, 3299, 152).

Definition repeated_label : list (string * string) :=
  [("a", "0x40"); ("b", "0x41"); ("a", "0x44")].

Definition header_text : string :=
  "test id,sensor label,timestamp epoch sec,timestamp datetime,power mW,supply voltage V,current mA"
  +:+ Csv.lineterminator.

(** Logs at ["out/test.csv"]: empty, the header alone, a last line that
    starts with a word, and last lines that were cut short. *)
Definition empty_log : FS := {[ "out/test.csv" := EmptyString ]}.
Definition header_log : FS := {[ "out/test.csv" := header_text ]}.
Definition word_log : FS :=
  {[ "out/test.csv" := header_text +:+ "abc,1" +:+ Csv.lineterminator ]}.
Definition cut_log : FS :=
  {[ "out/test.csv" := header_text +:+ "4,a,truncated" ]}.
Definition zero_log : FS :=
  {[ "out/test.csv" := header_text +:+ "0,a,1000.000" ]}.

(** The samples of the first round, and an address that is no number. *)
Definition sample_a : sample Z := sample_of fromtimestamp 1 ("a", create_ina 64) r1.
Definition sample_b : sample Z := sample_of fromtimestamp 1 ("b", create_ina 65) r2.
Definition no_log : FS := ∅.

(** A label that holds a line break, the sample of its first round and
    the log a session of one round leaves. *)
Definition broken_label : string := "x" +:+ Py.nl +:+ "y".
Definition broken_tests : list (string * string) := [(broken_label, "0x40")].
Definition broken_sample : sample Z :=
  sample_of fromtimestamp 1 (broken_label, create_ina 64) r1.
Definition broken_log : FS :=
  {[ "out/test.csv" := header_text +:+ Csv.writerow (cells repr broken_sample) ]}.
Definition bad_address : list (string * string) := [("a", "0x40"); ("b", "zz")].

End Bench.

(** *** Sample rows *)

Fixpoint count_commas (s : string) : nat :=
  match s with
  | EmptyString => O
  | String c s' => ((if Ascii.eqb c "," then 1 else 0) + count_commas s')%nat
  end.

(** A line of the log, without its line break, is a Sample row when it
    is the row [csv.writer] produces for some sample. *)
Definition is_sample_row {float : Type} (repr : float -> string)
    (line : string) : Prop :=
  exists s : sample float,
    Csv.writerow (cells repr s) = line +:+ Csv.lineterminator.

(** * Properties *)

(** ** Decimal text: [int(str(n)) = n] *)

Lemma uint_value_acc (d : Decimal.uint) (p : positive) :
  uint_value d (Z.pos p) = Z.pos (Pos.of_uint_acc d p).
Proof.
  revert p; induction d; intros p; cbn [uint_value Pos.of_uint_acc];
    try reflexivity; rewrite <- IHd; f_equal; lia.
Qed.

Lemma uint_value_of_uint (d : Decimal.uint) : uint_value d 0 = Z.of_uint d.
Proof.
  unfold Z.of_uint.
  induction d; cbn [uint_value Pos.of_uint]; try reflexivity;
    try (rewrite Z.mul_0_l, Z.add_0_l, uint_value_acc; reflexivity).
  exact IHd.
Qed.

Lemma scan_digits_uint (d : Decimal.uint) (prev : ascii) (acc : Z) :
  Ascii.eqb prev Py.underscore = false ->
  Py.scan_digits 10 (NilEmpty.string_of_uint d) prev acc
  = Some (uint_value d acc, EmptyString).
Proof.
  revert prev acc; induction d; intros prev acc Hprev;
    cbn [NilEmpty.string_of_uint uint_value];
    [ cbn; rewrite Hprev; reflexivity | .. ];
    match goal with
    | |- Py.scan_digits 10 (String ?c ?s) ?p ?a = Some (uint_value _ ?a', _) =>
        change (Py.scan_digits 10 (String c s) p a)
          with (Py.scan_digits 10 s c a');
        apply IHd; reflexivity
    end.
Qed.

Lemma int_of_str_uint (d : Decimal.uint) :
  d <> Nil ->
  Py.int_of_str 10 (NilEmpty.string_of_uint d) = Some (Z.of_uint d).
Proof.
  intros Hd. unfold Py.int_of_str.
  pose proof (scan_digits_uint d "000"%char 0 eq_refl) as Hscan.
  rewrite uint_value_of_uint in Hscan.
  destruct d; try congruence; cbn [NilEmpty.string_of_uint] in *;
    match goal with
    | |- context [Py.skip_space (String ?c ?s)] =>
        change (Py.skip_space (String c s)) with (String c s);
        change (Py.take_sign (String c s)) with (1, String c s);
        cbv beta iota zeta;
        change (Py.skip_prefix 10 (String c s)) with (String c s);
        cbv beta iota
    end;
    rewrite Hscan; cbn; f_equal; lia.
Qed.

Lemma int_of_str_neg_uint (d : Decimal.uint) :
  d <> Nil ->
  Py.int_of_str 10 (String "-" (NilEmpty.string_of_uint d))
  = Some (- Z.of_uint d).
Proof.
  intros Hd. unfold Py.int_of_str.
  pose proof (scan_digits_uint d "000"%char 0 eq_refl) as Hscan.
  rewrite uint_value_of_uint in Hscan.
  destruct d; try congruence; cbn [NilEmpty.string_of_uint] in *;
    match goal with
    | |- context [Py.skip_space (String "-" (String ?c ?s))] =>
        change (Py.skip_space (String "-" (String c s)))
          with (String "-" (String c s));
        change (Py.take_sign (String "-" (String c s))) with (-1, String c s);
        cbv beta iota zeta;
        change (Py.skip_prefix 10 (String c s)) with (String c s);
        cbv beta iota
    end;
    rewrite Hscan; cbn; f_equal; lia.
Qed.

Lemma int_of_str_str (n : Z) : Py.int_of_str 10 (Py.str n) = Some n.
Proof.
  unfold Py.str.
  rewrite <- (DecimalZ.of_to n) at 2.
  destruct n as [|p|p]; cbn [Z.to_int NilZero.string_of_int Z.of_int].
  - reflexivity.
  - pose proof (DecimalPos.Unsigned.to_uint_nonnil p) as Hnn.
    unfold NilZero.string_of_uint.
    destruct (Pos.to_uint p) eqn:E; try congruence; rewrite <- E;
      apply int_of_str_uint; congruence.
  - pose proof (DecimalPos.Unsigned.to_uint_nonnil p) as Hnn.
    unfold NilZero.string_of_uint.
    destruct (Pos.to_uint p) eqn:E; try congruence; rewrite <- E;
      apply int_of_str_neg_uint; congruence.
Qed.

Lemma int_str (n : Z) : Py.int (Py.str n) = Py.Ok n.
Proof. unfold Py.int. rewrite int_of_str_str. reflexivity. Qed.

(** ** Lines and fields *)

Lemma append_nil_r (s : string) : s +:+ EmptyString = s.
Proof. induction s as [|c s IH]; cbn [String.append]; [reflexivity | rewrite IH; reflexivity]. Qed.

Lemma append_assoc (a b c : string) : (a +:+ b) +:+ c = a +:+ (b +:+ c).
Proof. induction a as [|x a IH]; cbn [String.append]; [reflexivity | rewrite IH; reflexivity]. Qed.

Lemma append_eq_nil (a b : string) :
  a +:+ b = EmptyString -> a = EmptyString /\ b = EmptyString.
Proof. destruct a; cbn; [auto | discriminate]. Qed.

Lemma all_chars_app (P : ascii -> bool) (a b : string) :
  all_chars P (a +:+ b) = all_chars P a && all_chars P b.
Proof. induction a; cbn; [reflexivity | rewrite IHa; apply andb_assoc]. Qed.

Lemma all_chars_impl (P Q : ascii -> bool) (s : string) :
  (forall c, P c = true -> Q c = true) ->
  all_chars P s = true -> all_chars Q s = true.
Proof.
  intros HPQ; induction s; cbn; [reflexivity |].
  rewrite !andb_true_iff; intros [? ?]; auto.
Qed.

Lemma readlines_nil (s : string) : Py.readlines s = [] -> s = EmptyString.
Proof.
  destruct s as [|c s]; [reflexivity |]. cbn [Py.readlines].
  destruct (Ascii.eqb c Py.LF); [discriminate |].
  destruct (Ascii.eqb c Py.CR).
  - destruct s as [|c' s']; [discriminate |].
    destruct (Ascii.eqb c' Py.LF); discriminate.
  - destruct (Py.readlines s); discriminate.
Qed.

Lemma is_newline_false (c : ascii) :
  is_newline c = false -> Ascii.eqb c Py.LF = false /\ Ascii.eqb c Py.CR = false.
Proof. unfold is_newline; apply orb_false_iff. Qed.

(** A single line with its line break is read as one line ending in LF. *)
Lemma readlines_line (s eol : string) :
  one_line s = true -> is_line_end eol = true ->
  Py.readlines (s +:+ eol) =
  match s +:+ eol with
  | EmptyString => []
  | String _ _ => [s +:+ as_read eol]
  end.
Proof.
  intros Hs Heol. induction s as [|c s IH].
  - cbn [String.append]. unfold is_line_end in Heol.
    rewrite !orb_true_iff in Heol.
    destruct Heol as [[[H|H]|H]|H]; apply String.eqb_eq in H; subst eol;
      reflexivity.
  - cbn [one_line all_chars] in Hs. apply andb_true_iff in Hs as [Hc Hs].
    apply negb_true_iff, is_newline_false in Hc as [HLF HCR].
    specialize (IH Hs).
    cbn [String.append Py.readlines]. rewrite HLF, HCR, IH.
    destruct (s +:+ eol) eqn:E; [| reflexivity].
    apply append_eq_nil in E as [-> ->]. reflexivity.
Qed.

(** Whole lines in front do not change how the rest is split. *)
Lemma readlines_app_complete (n : nat) (before t : string) :
  (String.length before <= n)%nat ->
  complete_lines before = true ->
  (forall t', t <> String Py.LF t') ->
  Py.readlines (before +:+ t) = (Py.readlines before ++ Py.readlines t)%list.
Proof.
  revert before; induction n as [|n IH]; intros before Hlen Hcomp Ht.
  - destruct before; [reflexivity | cbn in Hlen; lia].
  - destruct before as [|c b]; [reflexivity |].
    cbn [String.length] in Hlen.
    cbn [String.append Py.readlines].
    destruct (Ascii.eqb c Py.LF) eqn:HLF.
    + destruct b as [|c' b']; [reflexivity |].
      rewrite (IH (String c' b')); [reflexivity | lia | exact Hcomp | exact Ht].
    + destruct (Ascii.eqb c Py.CR) eqn:HCR.
      * destruct b as [|c' b'].
        -- cbn [String.append]. destruct t as [|c' t']; [reflexivity |].
           destruct (Ascii.eqb c' Py.LF) eqn:E; [| reflexivity].
           apply Ascii.eqb_eq in E; subst c'. exfalso; exact (Ht t' eq_refl).
        -- cbn [String.append].
           destruct (Ascii.eqb c' Py.LF) eqn:E.
           ++ destruct b' as [|c'' b'']; [reflexivity |].
              rewrite (IH (String c'' b'')); [reflexivity | | exact Hcomp | exact Ht].
              cbn [String.length] in *; lia.
           ++ change (String c' (b' +:+ t)) with (String c' b' +:+ t).
              rewrite (IH (String c' b')); [reflexivity | lia | exact Hcomp | exact Ht].
      * destruct b as [|c' b'].
        -- cbn [complete_lines] in Hcomp. unfold is_newline in Hcomp.
           rewrite HLF, HCR in Hcomp. discriminate.
        -- rewrite (IH (String c' b')); [| lia | exact Hcomp | exact Ht].
           destruct (Py.readlines (String c' b')) eqn:E; [| reflexivity].
           apply readlines_nil in E. discriminate.
Qed.

(** The first field of a line is what stands before its first comma. *)
Lemma split_first_field (a r : string) :
  all_chars (fun c => negb (Ascii.eqb c ",")) a = true ->
  exists fields, Py.split "," (a +:+ String "," r) = a :: fields.
Proof.
  intros Ha. induction a as [|c a IH].
  - cbn. eauto.
  - cbn [all_chars] in Ha. apply andb_true_iff in Ha as [Hc Ha].
    apply negb_true_iff in Hc.
    destruct (IH Ha) as [fields Hf].
    cbn [String.append Py.split]. rewrite Hc, Hf. eauto.
Qed.

Lemma uint_chars (d : Decimal.uint) :
  all_chars is_int_char (NilEmpty.string_of_uint d) = true.
Proof. induction d; cbn [NilEmpty.string_of_uint all_chars]; auto. Qed.

Lemma str_chars (n : Z) : all_chars is_int_char (Py.str n) = true.
Proof.
  unfold Py.str.
  destruct (Z.to_int n) as [d|d]; cbn [NilZero.string_of_int];
    unfold NilZero.string_of_uint;
    destruct d; try reflexivity;
    cbn [all_chars]; try apply uint_chars;
    apply (uint_chars (_ d)).
Qed.

Lemma str_nonempty (n : Z) :
  exists c s, Py.str n = String c s /\ is_int_char c = true.
Proof.
  pose proof (str_chars n) as H.
  unfold Py.str in *.
  destruct (Z.to_int n) as [d|d]; cbn [NilZero.string_of_int] in *.
  - unfold NilZero.string_of_uint in *.
    destruct d; cbn [NilEmpty.string_of_uint all_chars] in *;
      eexists _, _; (split; [reflexivity | reflexivity]).
  - eexists _, _; split; reflexivity.
Qed.

Lemma int_char_not_newline (c : ascii) :
  is_int_char c = true -> negb (is_newline c) = true.
Proof.
  destruct c as [[] [] [] [] [] [] [] []]; cbv; intros; congruence.
Qed.

Lemma int_char_not_comma (c : ascii) :
  is_int_char c = true -> negb (Ascii.eqb c ",") = true.
Proof.
  destruct c as [[] [] [] [] [] [] [] []]; cbv; intros; congruence.
Qed.

(** What [get_test_id] reads from a file that ends in a row starting with
    the identifier [n]. *)
Lemma get_test_id_last_row (fs : FS) (testpath before rest eol : string) (n : Z) :
  complete_lines before = true ->
  one_line rest = true ->
  is_line_end eol = true ->
  fs !! testpath = Some (before +:+ Py.str n +:+ "," +:+ rest +:+ eol) ->
  get_test_id fs testpath = Py.Ok (n + 1).
Proof.
  intros Hbefore Hrest Heol Hfile.
  unfold get_test_id. rewrite Hfile.
  set (row := Py.str n +:+ "," +:+ rest).
  assert (Hrow : one_line row = true).
  { unfold row, one_line. rewrite !all_chars_app.
    rewrite (all_chars_impl _ _ _ int_char_not_newline (str_chars n)).
    exact Hrest. }
  destruct (str_nonempty n) as (c & s & Hstr & Hc).
  assert (Hsplit : Py.readlines (before +:+ Py.str n +:+ "," +:+ rest +:+ eol)
                   = (Py.readlines before ++ [row +:+ as_read eol])%list).
  { replace (before +:+ Py.str n +:+ "," +:+ rest +:+ eol)
      with (before +:+ (row +:+ eol))
      by (unfold row; rewrite !append_assoc; reflexivity).
    rewrite (readlines_app_complete (String.length before)); [| lia | exact Hbefore |].
    - rewrite (readlines_line row eol Hrow Heol).
      unfold row at 1. rewrite Hstr. reflexivity.
    - intros t' Ht. unfold row in Ht. rewrite Hstr in Ht. cbn in Ht.
      injection Ht as -> _. discriminate Hc. }
  rewrite Hsplit, last_snoc.
  unfold row. rewrite !append_assoc.
  destruct (split_first_field (Py.str n) (rest +:+ as_read eol)) as [fields Hf].
  { exact (all_chars_impl _ _ _ int_char_not_comma (str_chars n)). }
  change ("," +:+ rest +:+ as_read eol) with (String "," (rest +:+ as_read eol)).
  rewrite Hf. rewrite int_str. reflexivity.
Qed.

(** ** The polling loop *)

Section Loop.

Variable float : Type.
Variable repr : float -> string.
Variable fromtimestamp : float -> datetime.


Lemma poll_round_done (items : list (string * INA219)) (i : Z)
    (samples : list (sample float)) (rs : list (reading float))
    (tail : list (event float)) :
  length rs = length items ->
  poll_round fromtimestamp items i samples (map to_event rs ++ tail)
  = RoundDone (samples ++ round_samples fromtimestamp items i rs) tail.
Proof.
  revert samples rs; induction items as [|[label ina] items IH];
    intros samples [|[[[ts p] v] c] rs] Hlen; cbn in Hlen; try lia.
  - cbn. rewrite app_nil_r. reflexivity.
  - cbn [map app to_event poll_round]. rewrite IH by lia.
    cbn. rewrite <- app_assoc. reflexivity.
Qed.

Lemma poll_round_stop (items : list (string * INA219)) (i : Z)
    (samples : list (sample float)) (rs : list (reading float))
    (tail : list (event float)) :
  (length rs < length items)%nat -> stops tail = true ->
  poll_round fromtimestamp items i samples (map to_event rs ++ tail)
  = round_stop tail (samples ++ round_samples fromtimestamp items i rs).
Proof.
  revert samples rs; induction items as [|[label ina] items IH];
    intros samples rs Hlen Hstop; cbn in Hlen; [lia |].
  destruct rs as [|[[[ts p] v] c] rs].
  - cbn [map app round_samples zip_with]. rewrite app_nil_r.
    destruct tail as [|[] tail]; try discriminate; reflexivity.
  - cbn in Hlen. cbn [map app to_event poll_round].
    rewrite IH by (lia || assumption).
    cbn. rewrite <- app_assoc. reflexivity.
Qed.

Lemma poll_loop_rounds (items : list (string * INA219))
    (rounds : list (list (reading float))) (fuel : nat) (i : Z)
    (samples : list (sample float)) (tail : list (event float)) :
  Forall (fun r => length r = length items) rounds ->
  poll_loop fromtimestamp (length rounds + fuel) items i samples
    (events_of_rounds rounds ++ tail)
  = poll_loop fromtimestamp fuel items (i + Z.of_nat (length rounds))
      (samples ++ rounds_samples fromtimestamp items i rounds) tail.
Proof.
  intros Hrounds; revert i samples.
  induction Hrounds as [|r rounds Hr _ IH]; intros i samples.
  - cbn. rewrite app_nil_r, Z.add_0_r. reflexivity.
  - cbn [length Nat.add poll_loop events_of_rounds map concat rounds_samples].
    rewrite <- app_assoc. rewrite (poll_round_done _ _ _ _ _ Hr).
    fold (events_of_rounds rounds). rewrite IH.
    rewrite <- app_assoc. f_equal. lia.
Qed.

Lemma poll_loop_stop (items : list (string * INA219)) (fuel : nat) (i : Z)
    (samples : list (sample float)) (rs : list (reading float))
    (tail : list (event float)) :
  (length rs < length items)%nat -> stops tail = true ->
  poll_loop fromtimestamp (S fuel) items i samples (map to_event rs ++ tail)
  = loop_stop tail i (samples ++ round_samples fromtimestamp items i rs).
Proof.
  intros Hlen Hstop. cbn [poll_loop].
  rewrite poll_round_stop by assumption.
  destruct tail as [|[] tail]; try discriminate; reflexivity.
Qed.

Lemma events_of_rounds_length (n : nat) (rounds : list (list (reading float))) :
  Forall (fun r => length r = n) rounds ->
  length (events_of_rounds rounds) = (length rounds * n)%nat.
Proof.
  induction 1 as [|r rounds Hr _ IH]; [reflexivity |].
  cbn [events_of_rounds map concat length]. rewrite length_app, length_map.
  fold (events_of_rounds rounds). rewrite IH, Hr. reflexivity.
Qed.

Lemma round_samples_length (items : list (string * INA219)) (i : Z)
    (rs : list (reading float)) :
  length (round_samples fromtimestamp items i rs) = Nat.min (length items) (length rs).
Proof. apply length_zip_with. Qed.

Lemma rounds_samples_length (items : list (string * INA219)) (i : Z)
    (rounds : list (list (reading float))) :
  Forall (fun r => length r = length items) rounds ->
  length (rounds_samples fromtimestamp items i rounds) = (length rounds * length items)%nat.
Proof.
  intros H; revert i; induction H as [|r rounds Hr _ IH]; intros i;
    [reflexivity |].
  cbn [rounds_samples length]. rewrite length_app, round_samples_length, IH.
  lia.
Qed.

Lemma events_of_rounds_concat (rounds : list (list (reading float))) :
  events_of_rounds rounds = map to_event (concat rounds).
Proof. unfold events_of_rounds. symmetry. apply concat_map. Qed.

(** Any run of readings is a number of whole rounds followed by the
    beginning of a round. *)
Lemma chunk_readings (n : nat) (rs : list (reading float)) :
  (0 < n)%nat ->
  exists rounds partial,
    rs = (concat rounds ++ partial)%list /\
    Forall (fun r => length r = n) rounds /\ (length partial < n)%nat.
Proof.
  intros Hn.
  assert (H : forall m (l : list (reading float)), (length l <= m)%nat ->
            exists rounds partial,
              l = (concat rounds ++ partial)%list /\
              Forall (fun r => length r = n) rounds /\ (length partial < n)%nat).
  { induction m as [|m IH]; intros l Hl.
    - exists [], l. destruct l; cbn in *; [| lia]. repeat split; [constructor | lia].
    - destruct (le_lt_dec n (length l)) as [Hge|Hlt].
      + destruct (IH (drop n l)) as (rounds & partial & Heq & Hall & Hp).
        { rewrite length_drop. lia. }
        exists (take n l :: rounds), partial. repeat split; [| | exact Hp].
        * cbn [concat]. rewrite <- app_assoc, <- Heq, take_drop. reflexivity.
        * constructor; [| exact Hall]. rewrite length_take. lia.
      + exists [], l. repeat split; [constructor | exact Hlt]. }
  exact (H (length rs) rs (le_n _)).
Qed.

(** Every trace is a run of readings followed by a tail that stops a
    round. *)
Lemma env_split (env : list (event float)) :
  exists rs tail, env = (map to_event rs ++ tail)%list /\ stops tail = true.
Proof.
  induction env as [|[ts p v c|msg|] env (rs & tail & -> & Hstop)].
  - exists [], []. auto.
  - exists ((ts, p, v, c) :: rs), tail. auto.
  - exists [], (RangeError msg :: map to_event rs ++ tail)%list. auto.
  - exists [], (Interrupt :: map to_event rs ++ tail)%list. auto.
Qed.

(** A session: whole rounds, then the readings of a round in progress,
    then an event that stops the loop.  Any bound on the rounds above the
    length of the trace gives the result. *)
Lemma poll_loop_session (items : list (string * INA219))
    (rounds : list (list (reading float))) (partial : list (reading float))
    (tail : list (event float)) (i : Z) (fuel : nat) :
  items <> [] ->
  Forall (fun r => length r = length items) rounds ->
  (length partial < length items)%nat -> stops tail = true ->
  (length (events_of_rounds rounds ++ map to_event partial ++ tail) < fuel)%nat ->
  poll_loop fromtimestamp fuel items i []
    (events_of_rounds rounds ++ map to_event partial ++ tail)
  = loop_stop tail (i + Z.of_nat (length rounds))
      (rounds_samples fromtimestamp items i rounds
       ++ round_samples fromtimestamp items (i + Z.of_nat (length rounds)) partial).
Proof.
  intros Hne Hrounds Hpartial Hstop Hlen.
  assert (Hfuel : exists f, fuel = (length rounds + S f)%nat).
  { exists (fuel - length rounds - 1)%nat.
    rewrite length_app, (events_of_rounds_length _ _ Hrounds) in Hlen.
    destruct items; [congruence |]. cbn [length] in Hlen. nia. }
  destruct Hfuel as [f ->].
  rewrite poll_loop_rounds by assumption.
  rewrite poll_loop_stop by assumption.
  reflexivity.
Qed.

(** The bound [main] gives the loop is enough on every trace: the loop
    ends by an exception or waits for the next reading, and a larger
    bound changes nothing. *)
Lemma poll_loop_enough_fuel (items : list (string * INA219)) (i : Z)
    (env : list (event float)) (fuel : nat) :
  items <> [] -> (length env < fuel)%nat ->
  poll_loop fromtimestamp fuel items i [] env
  = poll_loop fromtimestamp (S (length env)) items i [] env /\
  forall j samples,
    poll_loop fromtimestamp (S (length env)) items i [] env <> Spinning j samples.
Proof.
  intros Hne Hfuel.
  destruct (env_split env) as (rs & tail & -> & Hstop).
  destruct (chunk_readings (length items) rs) as (rounds & partial & -> & Hall & Hp).
  { destruct items; [congruence | cbn; lia]. }
  rewrite map_app, <- events_of_rounds_concat, <- app_assoc in *.
  rewrite (poll_loop_session items rounds partial tail i fuel) by assumption.
  rewrite (poll_loop_session items rounds partial tail i (S _)) by (assumption || lia).
  split; [reflexivity |].
  intros j samples. destruct tail as [|[] tail]; discriminate.
Qed.

End Loop.

(** ** Flushing and the end of a session *)

Section Session.

Variable float : Type.
Variable repr : float -> string.
Variable fromtimestamp : float -> datetime.

Lemma rows_text_app (a b : list (sample float)) :
  rows_text repr (a ++ b) = rows_text repr a +:+ rows_text repr b.
Proof.
  induction a as [|s a IH]; cbn [rows_text app]; [reflexivity |].
  rewrite IH, append_assoc. reflexivity.
Qed.

Lemma append_rows (testpath text : string) (samples : list (sample float))
    (fs : FS) :
  fold_left (fun f s => append_file testpath (Csv.writerow (cells repr s)) f)
    samples (<[testpath := text]> fs)
  = <[testpath := text +:+ rows_text repr samples]> fs.
Proof.
  revert text; induction samples as [|s samples IH]; intros text.
  - cbn. rewrite append_nil_r. reflexivity.
  - cbn [fold_left rows_text]. unfold append_file at 2.
    rewrite lookup_insert_eq, insert_insert_eq. cbn [default].
    rewrite IH, append_assoc. reflexivity.
Qed.

(** One call of [write_to_csv] leaves the file with the flushed text and
    touches no other file. *)
Lemma write_to_csv_spec (header : list string) (samples : list (sample float))
    (testpath : string) (fs : FS) :
  write_to_csv repr header samples testpath fs
  = <[testpath := flushed repr header samples testpath fs]> fs.
Proof.
  unfold write_to_csv, flushed.
  destruct (fs !! testpath) as [old|] eqn:Hold; cbn [default].
  - unfold append_file at 2. rewrite Hold. cbn [default].
    rewrite append_nil_r. apply append_rows.
  - unfold append_file at 2, write_file.
    rewrite lookup_insert_eq, insert_insert_eq. cbn [default].
    rewrite append_nil_r. apply append_rows.
Qed.

Lemma dict_set_nonempty {V : Type} (k : string) (v : V) (d : list (string * V)) :
  dict_set k v d <> [].
Proof. destruct d as [|[k' v'] d]; cbn; [| destruct (String.eqb k' k)]; discriminate. Qed.

Lemma create_ina_map_from_nonempty (tests : list (string * string))
    (d reg : list (string * INA219)) :
  create_ina_map_from tests d = Py.Ok reg -> d <> [] \/ tests <> [] -> reg <> [].
Proof.
  revert d; induction tests as [|[test i2c_addr] tests IH]; intros d Hok Hne.
  - cbn in Hok. injection Hok as <-. destruct Hne; congruence.
  - cbn [create_ina_map_from] in Hok. unfold Py.bind in Hok.
    destruct (Py.int16 i2c_addr) as [a|e]; [| discriminate].
    apply (IH _ Hok). left. apply dict_set_nonempty.
Qed.

(** How [main] ends on a session of whole rounds, a round in progress and
    a stopping event. *)
Lemma main_session (filename output : string) (tests : list (string * string))
    (verbose : bool) (fs : FS) (reg : list (string * INA219)) (i : Z)
    (rounds : list (list (reading float))) (partial : list (reading float))
    (tail : list (event float)) :
  tests <> [] ->
  create_ina_map tests = Py.Ok reg ->
  get_test_id fs (log_path output filename) = Py.Ok i ->
  Forall (fun r => length r = length reg) rounds ->
  (length partial < length reg)%nat -> stops tail = true ->
  let buffer :=
    (rounds_samples fromtimestamp reg i rounds
     ++ round_samples fromtimestamp reg (i + Z.of_nat (length rounds)) partial)%list in
  main repr fromtimestamp filename tests verbose output fs
    (events_of_rounds rounds ++ map to_event partial ++ tail)
  = match tail with
    | Interrupt :: _ =>
        Exit 0 (write_to_csv repr csv_header buffer (log_path output filename) fs)
    | RangeError _ :: _ => Exit 1 fs
    | _ => StillRunning (i + Z.of_nat (length rounds)) buffer fs
    end.
Proof.
  intros Htests Hreg Hid Hrounds Hpartial Hstop buffer.
  assert (Hne : reg <> []).
  { apply (create_ina_map_from_nonempty tests [] reg Hreg). right. exact Htests. }
  unfold main. destruct tests as [|t tests]; [congruence |].
  rewrite Hreg. fold (log_path output filename). rewrite Hid.
  rewrite (poll_loop_session float fromtimestamp reg rounds partial tail i _
             Hne Hrounds Hpartial Hstop (Nat.lt_succ_diag_r _)).
  destruct tail as [|[] tail]; try discriminate; reflexivity.
Qed.

End Session.

(** ** Resuming, faults and rounds *)

Section Rounds.

Variable float : Type.
Variable repr : float -> string.
Variable fromtimestamp : float -> datetime.


Lemma round_samples_labels (items : list (string * INA219)) (i : Z)
    (rs : list (reading float)) :
  length rs = length items ->
  map sensor_label (round_samples fromtimestamp items i rs) = map fst items.
Proof.
  revert rs; induction items as [|item items IH]; intros [|[[[ts p] v] c] rs] Hlen;
    cbn in Hlen; try lia; [reflexivity |].
  cbn. f_equal. apply IH. lia.
Qed.



(** C3.  When a sensor read raises a range error, whatever was sampled
    before, [main] exits with status 1 and the file system is what it was
    when the session started: nothing is flushed. *)
Theorem no_flush_on_fault (filename output : string)
    (tests : list (string * string)) (verbose : bool) (fs : FS)
    (reg : list (string * INA219)) (i : Z) (rs : list (reading float))
    (msg : string) (rest : list (event float)) :
  tests <> [] -> create_ina_map tests = Py.Ok reg ->
  get_test_id fs (log_path output filename) = Py.Ok i ->
  main repr fromtimestamp filename tests verbose output fs
    (map to_event rs ++ RangeError msg :: rest)
  = Exit 1 fs.
Proof.
  intros Htests Hreg Hid.
  assert (Hne : reg <> []).
  { apply (create_ina_map_from_nonempty tests [] reg Hreg). right. exact Htests. }
  destruct (chunk_readings float (length reg) rs)
    as (rounds & partial & -> & Hall & Hp).
  { destruct reg; [congruence | cbn; lia]. }
  rewrite map_app, <- events_of_rounds_concat, <- app_assoc.
  rewrite (main_session float repr fromtimestamp filename output tests verbose
             fs reg i rounds partial (RangeError msg :: rest)
             Htests Hreg Hid Hall Hp eq_refl).
  reflexivity.
Qed.


End Rounds.

(** ** Cancellation *)

Section Cancellation.

Variable float : Type.
Variable repr : float -> string.
Variable fromtimestamp : float -> datetime.

Lemma session_buffer_length (items : list (string * INA219)) (i j : Z)
    (rounds : list (list (reading float))) (partial : list (reading float)) :
  Forall (fun r => length r = length items) rounds ->
  (length partial < length items)%nat ->
  length (rounds_samples fromtimestamp items i rounds
          ++ round_samples fromtimestamp items j partial)
  = (length rounds * length items + length partial)%nat.
Proof.
  intros Hrounds Hpartial.
  rewrite length_app, rounds_samples_length, round_samples_length by assumption.
  lia.
Qed.

(** C4, as the code has it.  When the interrupt is observed after [N]
    whole rounds and [k] further samples of the round in progress
    ([k] below the number of sensors, 0 at a round boundary), [main] makes
    one call of [write_to_csv] with the buffer and exits with status 0:
    the log holds what it held (or the header row, for a new file)
    followed by the rows of the [N * sensors + k] buffered samples in
    buffer order, and no other file changes. *)
Theorem flush_on_cancel (filename output : string)
    (tests : list (string * string)) (verbose : bool) (fs : FS)
    (reg : list (string * INA219)) (i : Z)
    (rounds : list (list (reading float))) (partial : list (reading float))
    (rest : list (event float)) :
  tests <> [] -> create_ina_map tests = Py.Ok reg ->
  get_test_id fs (log_path output filename) = Py.Ok i ->
  Forall (fun r => length r = length reg) rounds ->
  (length partial < length reg)%nat ->
  let buffer :=
    (rounds_samples fromtimestamp reg i rounds
     ++ round_samples fromtimestamp reg (i + Z.of_nat (length rounds)) partial)%list in
  let fs' := write_to_csv repr csv_header buffer (log_path output filename) fs in
  main repr fromtimestamp filename tests verbose output fs
    (events_of_rounds rounds ++ map to_event partial ++ Interrupt :: rest)
  = Exit 0 fs' /\
  fs' = <[log_path output filename :=
            default (Csv.writerow csv_header) (fs !! log_path output filename)
            +:+ rows_text repr buffer]> fs /\
  length buffer = (length rounds * length reg + length partial)%nat.
Proof.
  intros Htests Hreg Hid Hrounds Hpartial buffer fs'.
  split; [| split].
  - exact (main_session float repr fromtimestamp filename output tests verbose
             fs reg i rounds partial (Interrupt :: rest)
             Htests Hreg Hid Hrounds Hpartial eq_refl).
  - apply write_to_csv_spec.
  - apply session_buffer_length; assumption.
Qed.


End Cancellation.

(** ** The log file: header and rows *)

Section Log.

Variable float : Type.
Variable repr : float -> string.
Variable fromtimestamp : float -> datetime.

Lemma int_char_not_special (c : ascii) :
  is_int_char c = true -> negb (Csv.special c) = true.
Proof.
  destruct c as [[] [] [] [] [] [] [] []]; cbv; intros; congruence.
Qed.

Lemma has_special_all_chars (s : string) :
  all_chars (fun c => negb (Csv.special c)) s = true -> Csv.has_special s = false.
Proof.
  induction s as [|c s IH]; cbn [all_chars Csv.has_special]; [reflexivity |].
  rewrite andb_true_iff, negb_true_iff. intros [-> Hs]. auto.
Qed.

Lemma join_append_str (n : Z) : Csv.join_append (Py.str n) = Py.str n.
Proof.
  unfold Csv.join_append. rewrite has_special_all_chars; [reflexivity |].
  exact (all_chars_impl _ _ _ int_char_not_special (str_chars n)).
Qed.

Lemma append_cons_assoc (a b t : string) (c : ascii) :
  (a +:+ String c b) +:+ t = a +:+ String c (b +:+ t).
Proof. rewrite append_assoc. reflexivity. Qed.

(** A row of seven fields, field by field. *)
Lemma writerow_seven (f1 f2 f3 f4 f5 f6 f7 : string) :
  Csv.writerow [f1; f2; f3; f4; f5; f6; f7]
  = Csv.join_append f1 +:+ "," +:+ Csv.join_append f2 +:+ ","
    +:+ Csv.join_append f3 +:+ "," +:+ Csv.join_append f4 +:+ ","
    +:+ Csv.join_append f5 +:+ "," +:+ Csv.join_append f6 +:+ ","
    +:+ Csv.join_append f7 +:+ Csv.lineterminator.
Proof.
  unfold Csv.writerow. cbn [Csv.join String.append]. unfold Csv.delimiter.
  set (body := Csv.join_append f2 +:+ _).
  assert (Hbody : body +:+ Csv.lineterminator
                  = Csv.join_append f2 +:+ String ","
                      (Csv.join_append f3 +:+ String ","
                         (Csv.join_append f4 +:+ String ","
                            (Csv.join_append f5 +:+ String ","
                               (Csv.join_append f6 +:+ String ","
                                  (Csv.join_append f7 +:+ Csv.lineterminator)))))).
  { subst body. rewrite !append_cons_assoc. reflexivity. }
  rewrite <- Hbody.
  destruct (Csv.join_append f1) as [|c s1]; cbn [String.append].
  - reflexivity.
  - rewrite append_cons_assoc. reflexivity.
Qed.

(** A data row starts with a character of the identifier, the header
    row with a letter: no data row is a header row. *)
Lemma row_not_header (s : sample float) :
  Csv.writerow (cells repr s) <> Csv.writerow csv_header.
Proof.
  unfold cells. rewrite writerow_seven, join_append_str.
  destruct (str_nonempty (test_id s)) as (c & rest & -> & Hc).
  cbn [String.append]. intros H.
  assert (Hc' : c = "t"%char) by (vm_compute in H; congruence).
  subst c. discriminate Hc.
Qed.

(** C6.  However many times [write_to_csv] is called on a path, the
    header row is written by the first call only, and only when the file
    did not exist: the file then holds one header row followed by the
    rows of all the calls, and a file that existed holds what it held
    followed by those rows.  No other file changes, and no row of a
    sample is the header row of [main]. *)
Theorem header_idempotence (header : list string) (testpath : string) (fs : FS)
    (batch : list (sample float)) (batches : list (list (sample float))) :
  fold_left (fun f samples => write_to_csv repr header samples testpath f)
    (batch :: batches) fs
  = <[testpath :=
        default (Csv.writerow header) (fs !! testpath)
        +:+ rows_text repr (concat (batch :: batches))]> fs
  /\ Forall (fun s => Csv.writerow (cells repr s) <> Csv.writerow csv_header)
       (concat (batch :: batches)).
Proof.
  split; [| apply Forall_forall; intros s _; apply row_not_header].
  revert fs batch; induction batches as [|b batches IH]; intros fs batch.
  - cbn [fold_left concat]. rewrite app_nil_r. apply write_to_csv_spec.
  - change (fold_left _ (batch :: b :: batches) fs)
      with (fold_left (fun f samples => write_to_csv repr header samples testpath f)
              (b :: batches) (write_to_csv repr header batch testpath fs)).
    rewrite IH, write_to_csv_spec. unfold flushed.
    rewrite lookup_insert_eq, insert_insert_eq. cbn [default concat id].
    rewrite append_assoc, <- rows_text_app. reflexivity.
Qed.

(** *** The timestamp column *)

Lemma digit_char_is_digit (d : Z) : is_digit (digit_char d) = true.
Proof.
  unfold digit_char.
  pose proof (Z.mod_pos_bound d 10 eq_refl) as Hb.
  assert (H : d mod 10 = 0 \/ d mod 10 = 1 \/ d mod 10 = 2 \/ d mod 10 = 3
              \/ d mod 10 = 4 \/ d mod 10 = 5 \/ d mod 10 = 6 \/ d mod 10 = 7
              \/ d mod 10 = 8 \/ d mod 10 = 9) by lia.
  repeat (destruct H as [-> | H]; [reflexivity |]). rewrite H. reflexivity.
Qed.


Lemma two_digits (p : ascii) (n : Z) :
  placeholder p = true ->
  has_format (String p (String p EmptyString)) (zero_padded 2 n) = true.
Proof.
  intros Hp. cbn [zero_padded String.append has_format].
  rewrite Hp, !digit_char_is_digit. reflexivity.
Qed.


Lemma four_digit_years :
  forallb (fun y => has_format "YYYY" (Py.str y)) (seqZ 1000 9000) = true.
Proof. vm_compute. reflexivity. Qed.

Lemma year_format (y : Z) :
  1000 <= y <= 9999 -> has_format "YYYY" (Py.str y) = true.
Proof.
  intros Hy. pose proof four_digit_years as H.
  rewrite forallb_forall in H. apply H.
  apply list_elem_of_In, elem_of_seqZ. lia.
Qed.







End Log.

(** ** The registry *)

Lemma dict_get_set_eq {V : Type} (k : string) (v : V) (d : list (string * V)) :
  dict_get k (dict_set k v d) = Some v.
Proof.
  induction d as [|[k' v'] d IH]; cbn [dict_set dict_get].
  - rewrite String.eqb_refl. reflexivity.
  - destruct (String.eqb k' k) eqn:E; cbn [dict_get]; rewrite E; auto.
Qed.

Lemma dict_get_set_ne {V : Type} (k l : string) (v : V) (d : list (string * V)) :
  k <> l -> dict_get l (dict_set k v d) = dict_get l d.
Proof.
  intros Hne. induction d as [|[k' v'] d IH]; cbn [dict_set dict_get].
  - apply String.eqb_neq in Hne. rewrite Hne. reflexivity.
  - destruct (String.eqb k' k) eqn:E; cbn [dict_get].
    + apply String.eqb_eq in E. subst k'.
      apply String.eqb_neq in Hne. rewrite Hne. reflexivity.
    + rewrite IH. reflexivity.
Qed.

Lemma dict_set_keys {V : Type} (k : string) (v : V) (d : list (string * V)) :
  map fst (dict_set k v d)
  = if decide (k ∈ map fst d) then map fst d else (map fst d ++ [k])%list.
Proof.
  induction d as [|[k' v'] d IH]; cbn [dict_set map fst].
  - rewrite decide_False; [reflexivity | apply not_elem_of_nil].
  - destruct (String.eqb k' k) eqn:E.
    + apply String.eqb_eq in E. subst k'.
      rewrite decide_True by apply list_elem_of_here. reflexivity.
    + apply String.eqb_neq in E. cbn [map fst]. rewrite IH.
      destruct (decide (k ∈ map fst d)) as [Hin|Hout].
      * rewrite decide_True by (apply list_elem_of_further, Hin). reflexivity.
      * rewrite decide_False; [reflexivity |].
        rewrite elem_of_cons. intros [?|?]; congruence.
Qed.

Lemma dict_set_NoDup {V : Type} (k : string) (v : V) (d : list (string * V)) :
  NoDup (map fst d) -> NoDup (map fst (dict_set k v d)).
Proof.
  intros Hd. rewrite dict_set_keys.
  destruct (decide (k ∈ map fst d)) as [Hin|Hout]; [exact Hd |].
  apply NoDup_app. split; [exact Hd |]. split; [| apply NoDup_singleton].
  intros x Hx Hk. apply list_elem_of_singleton in Hk. congruence.
Qed.

Lemma dict_set_elem {V : Type} (k l : string) (v : V) (d : list (string * V)) :
  l ∈ map fst (dict_set k v d) <-> l = k \/ l ∈ map fst d.
Proof.
  rewrite dict_set_keys.
  destruct (decide (k ∈ map fst d)) as [Hin|Hout].
  - split; [auto |]. intros [->|?]; assumption.
  - rewrite elem_of_app, list_elem_of_singleton. tauto.
Qed.

Lemma last_address_cons (l k a : string) (tests : list (string * string)) :
  last_address l ((k, a) :: tests)
  = match last_address l tests with
    | Some text => Some text
    | None => if decide (k = l) then Some a else None
    end.
Proof.
  unfold last_address. rewrite filter_cons. cbn [fst].
  destruct (decide (k = l)) as [->|Hne].
  - rewrite last_cons.
    destruct (last (filter (fun t => fst t = l) tests)); reflexivity.
  - destruct (last (filter (fun t => fst t = l) tests)); reflexivity.
Qed.

Lemma last_address_None (l : string) (tests : list (string * string)) :
  last_address l tests = None -> l ∉ map fst tests.
Proof.
  induction tests as [|[k a] tests IH]; [intros _; apply not_elem_of_nil |].
  rewrite last_address_cons.
  destruct (last_address l tests); [discriminate |].
  destruct (decide (k = l)); [discriminate |].
  intros _. cbn [map fst]. rewrite elem_of_cons. intros [?|?]; [congruence |].
  exact (IH eq_refl H).
Qed.

(** The state of the comprehension after the entries [tests], started
    from the dict [d]. *)
Lemma create_ina_map_from_spec (tests : list (string * string))
    (d : list (string * INA219)) :
  Forall (fun t => is_Some (Py.int_of_str 16 (snd t))) tests ->
  NoDup (map fst d) ->
  exists reg,
    create_ina_map_from tests d = Py.Ok reg /\
    NoDup (map fst reg) /\
    (forall l, l ∈ map fst reg <-> l ∈ map fst d \/ l ∈ map fst tests) /\
    (forall l, dict_get l reg
               = match last_address l tests with
                 | Some text => create_ina <$> Py.int_of_str 16 text
                 | None => dict_get l d
                 end).
Proof.
  intros Hvalid; revert d.
  induction Hvalid as [|[k a] tests [z Hz] _ IH]; intros d Hd.
  - exists d. cbn. repeat split; auto. intros [?|H]; [assumption | inversion H].
  - cbn [snd] in Hz.
    destruct (IH (dict_set k (create_ina z) d) (dict_set_NoDup _ _ _ Hd))
      as (reg & Hreg & Hnd & Hkeys & Hget).
    exists reg. split; [| split; [exact Hnd | split]].
    + cbn [create_ina_map_from]. unfold Py.int16. rewrite Hz. exact Hreg.
    + intros l. rewrite Hkeys, dict_set_elem. cbn [map fst].
      rewrite elem_of_cons. tauto.
    + intros l. rewrite Hget, last_address_cons.
      destruct (last_address l tests); [reflexivity |].
      destruct (decide (k = l)) as [->|Hne].
      * rewrite dict_get_set_eq, Hz. reflexivity.
      * apply dict_get_set_ne, Hne.
Qed.

(** C10.  When every address parses, [create_ina_map] raises nothing and
    returns a registry with one entry per distinct label, each label
    mapped to the handle built from the address of its last entry; the
    registry, hence every round, is shorter than the configured entries
    as soon as a label is repeated. *)
Theorem registry_collapses_duplicates (tests : list (string * string)) :
  Forall (fun t => is_Some (Py.int_of_str 16 (snd t))) tests ->
  exists reg,
    create_ina_map tests = Py.Ok reg /\
    NoDup (map fst reg) /\
    (forall l, l ∈ map fst reg <-> l ∈ map fst tests) /\
    (forall l, l ∈ map fst tests ->
       exists text a,
         last_address l tests = Some text /\
         Py.int_of_str 16 text = Some a /\
         dict_get l reg = Some (create_ina a)) /\
    (length reg <= length tests)%nat /\
    (~ NoDup (map fst tests) -> (length reg < length tests)%nat).
Proof.
  intros Hvalid.
  destruct (create_ina_map_from_spec tests [] Hvalid (NoDup_nil_2))
    as (reg & Hreg & Hnd & Hkeys & Hget).
  assert (Hkeys' : forall l, l ∈ map fst reg <-> l ∈ map fst tests).
  { intros l. rewrite Hkeys. split; [intros [H|H]; [inversion H | exact H] | auto]. }
  assert (Hsub : map fst reg ⊆+ map fst tests).
  { apply NoDup_submseteq; [exact Hnd |]. intros x. apply Hkeys'. }
  pose proof (submseteq_length _ _ Hsub) as Hlen. rewrite !length_map in Hlen.
  exists reg. repeat split; try assumption; try apply Hkeys'.
  - intros l Hl.
    specialize (Hget l).
    destruct (last_address l tests) as [text|] eqn:Hlast.
    + assert (Htext : is_Some (Py.int_of_str 16 text)).
      { unfold last_address in Hlast.
        destruct (last (filter (fun t => fst t = l) tests)) as [[k a]|] eqn:El;
          [| discriminate].
        injection Hlast as <-.
        apply last_Some_elem_of, list_elem_of_filter in El as [_ Hin].
        rewrite Forall_forall in Hvalid. exact (Hvalid _ Hin). }
      destruct Htext as [a Ha]. exists text, a.
      rewrite Hget, Ha. auto.
    + exfalso. exact (last_address_None _ _ Hlast Hl).
  - intros Hdup.
    destruct (Nat.eq_dec (length reg) (length tests)) as [Heq|Hne]; [| lia].
    exfalso. apply Hdup.
    assert (Hperm : map fst reg ≡ₚ map fst tests).
    { apply submseteq_length_Permutation; [exact Hsub |].
      rewrite !length_map. lia. }
    rewrite <- Hperm. exact Hnd.
Qed.

(** ** What [int()] accepts *)

Lemma digit_value_digit (c : ascii) :
  is_digit c = true <->
  exists d, Py.digit_value c = Some d /\ (d <? 10) = true.
Proof.
  destruct c as [[] [] [] [] [] [] [] []]; cbv;
    (split; [intros H; try discriminate H; eexists; split; reflexivity
            | intros (d & H & H'); try discriminate H;
              injection H as <-; try discriminate H'; reflexivity]).
Qed.

Lemma is_digit_not_underscore (c : ascii) :
  is_digit c = true -> Ascii.eqb c Py.underscore = false.
Proof. destruct c as [[] [] [] [] [] [] [] []]; cbv; congruence. Qed.

Lemma skip_space_split (s : string) :
  exists lead, s = lead +:+ Py.skip_space s /\ all_chars Py.is_space lead = true.
Proof.
  induction s as [|c s (lead & Hs & Hlead)].
  - exists EmptyString. auto.
  - cbn [Py.skip_space]. destruct (Py.is_space c) eqn:Hc.
    + exists (String c lead). cbn [String.append all_chars].
      rewrite Hc, Hlead, <- Hs. auto.
    + exists EmptyString. auto.
Qed.

Lemma skip_space_nil (s : string) :
  Py.skip_space s = EmptyString -> all_chars Py.is_space s = true.
Proof.
  induction s as [|c s IH]; cbn [Py.skip_space all_chars]; [reflexivity |].
  destruct (Py.is_space c); [auto | discriminate].
Qed.

Lemma take_sign_split (s s1 : string) (sg : Z) :
  Py.take_sign s = (sg, s1) ->
  exists sign, s = sign +:+ s1 /\
               (sign = EmptyString \/ sign = "+" \/ sign = "-").
Proof.
  unfold Py.take_sign.
  destruct s as [|c s']; [intros [= <- <-]; exists EmptyString; auto |].
  destruct (Ascii.eqb c "+") eqn:Hp; [apply Ascii.eqb_eq in Hp; subst c |].
  { intros [= <- <-]. exists "+". auto. }
  destruct (Ascii.eqb c "-") eqn:Hm; [apply Ascii.eqb_eq in Hm; subst c |].
  { intros [= <- <-]. exists "-". auto. }
  intros H. exists EmptyString.
  destruct c as [[] [] [] [] [] [] [] []]; try discriminate Hp;
    try discriminate Hm; injection H as <- <-; auto.
Qed.

(** What the digit loop has read when it returns. *)
Lemma scan_digits_inv (s : string) (prev : ascii) (acc v : Z) (rest : string) :
  Py.scan_digits 10 s prev acc = Some (v, rest) ->
  exists body, s = body +:+ rest /\
    if Ascii.eqb prev Py.underscore then digit_group body else digits_tail body.
Proof.
  revert prev acc; induction s as [|c s IH]; intros prev acc;
    cbn [Py.scan_digits].
  - destruct (Ascii.eqb prev Py.underscore); [discriminate |].
    intros [= <- <-]. exists EmptyString. split; [reflexivity | constructor].
  - destruct (Ascii.eqb c Py.underscore) eqn:Hc.
    + apply Ascii.eqb_eq in Hc. subst c.
      destruct (Ascii.eqb prev Py.underscore); [discriminate |].
      intros H. apply IH in H as (body & -> & Hbody). cbn in Hbody.
      exists (String Py.underscore body). split; [reflexivity |].
      destruct Hbody as [d t Hd Ht]. constructor; assumption.
    + assert (Hstop : (if Ascii.eqb prev Py.underscore then None
                       else Some (acc, String c s)) = Some (v, rest) ->
                      exists body, String c s = body +:+ rest /\
                        if Ascii.eqb prev Py.underscore then digit_group body
                        else digits_tail body).
      { destruct (Ascii.eqb prev Py.underscore); [discriminate |].
        intros [= <- <-]. exists EmptyString. split; [reflexivity | constructor]. }
      destruct (Py.digit_value c) as [d|] eqn:Hd; [| exact Hstop].
      destruct (d <? 10) eqn:Hlt; [| exact Hstop].
      assert (Hdig : is_digit c = true) by (apply digit_value_digit; eauto).
      intros H. apply IH in H as (body & -> & Hbody).
      rewrite (is_digit_not_underscore c Hdig) in Hbody.
      exists (String c body). split; [reflexivity |].
      destruct (Ascii.eqb prev Py.underscore); constructor; assumption.
Qed.

(** [int()] returns only on a decimal integer. *)
Lemma int_of_str_literal (s : string) (v : Z) :
  Py.int_of_str 10 s = Some v -> int_literal s.
Proof.
  unfold Py.int_of_str.
  destruct (skip_space_split s) as (lead & Hs & Hlead).
  destruct (Py.take_sign (Py.skip_space s)) as [sg s1] eqn:Hsign.
  apply take_sign_split in Hsign as (sign & Hs1 & Hsg).
  change (Py.skip_prefix 10 s1) with s1. cbv zeta.
  assert (Hbody : match Py.scan_digits 10 s1 "000"%char 0 with
                  | Some (v0, rest) =>
                      if String.eqb rest s1 then None
                      else match Py.skip_space rest with
                           | EmptyString => Some (sg * v0)
                           | String _ _ => None
                           end
                  | None => None
                  end = Some v ->
                  (forall t, s1 <> String "_" t) -> int_literal s).
  { destruct (Py.scan_digits 10 s1 "000"%char 0) as [[v0 rest]|] eqn:Hscan;
      [| discriminate].
    destruct (String.eqb rest s1) eqn:Hrest; [discriminate |].
    destruct (Py.skip_space rest) eqn:Htrail; [| discriminate].
    intros _ Hstart.
    apply scan_digits_inv in Hscan as (body & Hs1' & Htail). cbn in Htail.
    apply skip_space_nil in Htrail. apply String.eqb_neq in Hrest.
    rewrite Hs, Hs1, Hs1'. constructor; try assumption.
    destruct Htail as [|c t Hc Ht|c t Hc Ht].
    - cbn in Hs1'. congruence.
    - constructor; assumption.
    - exfalso. exact (Hstart _ Hs1'). }
  destruct s1 as [|c s1']; [intros H; apply Hbody; [exact H | discriminate] |].
  destruct (Ascii.eqb c "_") eqn:Hc.
  - apply Ascii.eqb_eq in Hc. subst c. discriminate.
  - intros H. apply Hbody.
    + destruct c as [[] [] [] [] [] [] [] []]; try discriminate Hc; exact H.
    + intros t [= -> _]. discriminate Hc.
Qed.

Lemma space_not_digit (c : ascii) :
  Py.is_space c = true ->
  Ascii.eqb c Py.underscore = false /\ Py.digit_value c = None.
Proof. destruct c as [[] [] [] [] [] [] [] []]; cbv; intros; split; congruence. Qed.

Lemma digit_not_space (c : ascii) :
  is_digit c = true ->
  Py.is_space c = false /\ Ascii.eqb c "+" = false /\ Ascii.eqb c "-" = false.
Proof.
  destruct c as [[] [] [] [] [] [] [] []]; cbv; intros; repeat split; congruence.
Qed.

Lemma skip_space_lead (lead x : string) :
  all_chars Py.is_space lead = true ->
  Py.skip_space (lead +:+ x) = Py.skip_space x.
Proof.
  induction lead as [|c lead IH]; cbn [all_chars String.append Py.skip_space];
    [reflexivity |].
  rewrite andb_true_iff. intros [-> H]. auto.
Qed.

Lemma skip_space_all (trail : string) :
  all_chars Py.is_space trail = true -> Py.skip_space trail = EmptyString.
Proof.
  induction trail as [|c trail IH]; cbn [all_chars Py.skip_space]; [reflexivity |].
  rewrite andb_true_iff. intros [-> H]. auto.
Qed.

Lemma length_append (a b : string) :
  String.length (a +:+ b) = (String.length a + String.length b)%nat.
Proof. induction a as [|c a IH]; cbn [String.append String.length]; lia. Qed.

(** The digit loop reads a whole group of digits and stops at the white
    space behind it. *)
Lemma scan_digits_tail (t trail : string) (prev : ascii) (acc : Z) :
  digits_tail t -> Ascii.eqb prev Py.underscore = false ->
  all_chars Py.is_space trail = true ->
  exists v, Py.scan_digits 10 (t +:+ trail) prev acc = Some (v, trail).
Proof.
  intros Ht; revert prev acc; induction Ht as [|c s Hc Hs IH|c s Hc Hs IH];
    intros prev acc Hprev Htrail.
  - cbn [String.append]. destruct trail as [|w tr]; cbn [Py.scan_digits].
    + rewrite Hprev. eauto.
    + cbn [all_chars] in Htrail. apply andb_true_iff in Htrail as [Hw _].
      destruct (space_not_digit w Hw) as [-> ->]. rewrite Hprev. eauto.
  - cbn [String.append Py.scan_digits].
    rewrite (is_digit_not_underscore c Hc).
    destruct (proj1 (digit_value_digit c) Hc) as (d & -> & ->).
    apply IH; [apply is_digit_not_underscore, Hc | exact Htrail].
  - cbn [String.append Py.scan_digits].
    change (Ascii.eqb "_" Py.underscore) with true. cbv iota. rewrite Hprev.
    change (Ascii.eqb Py.underscore Py.underscore) with true.
    rewrite (is_digit_not_underscore c Hc).
    destruct (proj1 (digit_value_digit c) Hc) as (d & -> & ->).
    apply IH; [apply is_digit_not_underscore, Hc | exact Htrail].
Qed.

(** [int()] returns on every decimal integer. *)
Lemma int_literal_accepted (s : string) :
  int_literal s -> exists v, Py.int_of_str 10 s = Some v.
Proof.
  intros [lead sign body trail Hlead Hsign [c t Hc Ht] Htrail].
  destruct (digit_not_space c Hc) as (Hsp & Hplus & Hminus).
  pose proof (is_digit_not_underscore c Hc) as Hus.
  destruct (scan_digits_tail t trail c
              (match Py.digit_value c with Some d => 0 * 10 + d | None => 0 end)
              Ht Hus Htrail) as [v Hv].
  assert (Hscan : Py.scan_digits 10 (String c (t +:+ trail)) "000"%char 0
                  = Some (v, trail)).
  { cbn [Py.scan_digits]. rewrite Hus.
    destruct (proj1 (digit_value_digit c) Hc) as (d & Hd & Hlt).
    rewrite Hd in *. rewrite Hlt. exact Hv. }
  assert (Hne : String.eqb trail (String c (t +:+ trail)) = false).
  { apply String.eqb_neq. intros H. apply (f_equal String.length) in H.
    cbn [String.length] in H. rewrite length_append in H. lia. }
  assert (Hstart : forall sg : Z,
            match String c (t +:+ trail) with
            | String "_" _ => None
            | _ =>
                match Py.scan_digits 10 (String c (t +:+ trail)) "000"%char 0 with
                | None => None
                | Some (v0, rest) =>
                    if String.eqb rest (String c (t +:+ trail)) then None
                    else match Py.skip_space rest with
                         | EmptyString => Some (sg * v0)
                         | String _ _ => None
                         end
                end
            end = Some (sg * v)).
  { intros sg. rewrite Hscan, Hne, (skip_space_all trail Htrail).
    destruct c as [[] [] [] [] [] [] [] []]; try discriminate Hus; reflexivity. }
  unfold Py.int_of_str. rewrite (skip_space_lead _ _ Hlead).
  destruct Hsign as [-> | [-> | ->]]; cbn [String.append Py.skip_space].
  - rewrite Hsp.
    assert (Hsign : Py.take_sign (String c (t +:+ trail))
                    = (1, String c (t +:+ trail))).
    { destruct c as [[] [] [] [] [] [] [] []]; try discriminate Hplus;
        try discriminate Hminus; reflexivity. }
    rewrite Hsign. cbv zeta. change (Py.skip_prefix 10 ?x) with x.
    exists (1 * v). apply Hstart.
  - change (Py.is_space "+") with false. cbv iota.
    change (Py.take_sign (String "+" ?x)) with (1, x). cbv zeta beta iota.
    change (Py.skip_prefix 10 ?x) with x.
    exists (1 * v). apply Hstart.
  - change (Py.is_space "-") with false. cbv iota.
    change (Py.take_sign (String "-" ?x)) with (-1, x). cbv zeta beta iota.
    change (Py.skip_prefix 10 ?x) with x.
    exists (-1 * v). apply Hstart.
Qed.

(** [int()] raises exactly on what is not a decimal integer. *)
Lemma int_raises_iff (s : string) :
  Py.int s = Py.Raise Py.ValueError <-> ~ int_literal s.
Proof.
  unfold Py.int. split.
  - intros H Hlit. apply int_literal_accepted in Hlit as [v Hv].
    rewrite Hv in H. discriminate.
  - intros Hnot. destruct (Py.int_of_str 10 s) as [v|] eqn:E; [| reflexivity].
    exfalso. exact (Hnot (int_of_str_literal s v E)).
Qed.

(** ** An existing log that cannot be resumed *)

Lemma get_test_id_empty (fs : FS) (testpath : string) :
  fs !! testpath = Some EmptyString ->
  get_test_id fs testpath = Py.Raise (Py.UnboundLocalError "line").
Proof. intros H. unfold get_test_id. rewrite H. reflexivity. Qed.

Lemma get_test_id_field (fs : FS) (testpath content last_row rid : string)
    (fields : list string) :
  fs !! testpath = Some content ->
  last (Py.readlines content) = Some last_row ->
  Py.split "," last_row = rid :: fields ->
  get_test_id fs testpath = Py.bind (Py.int rid) (fun n => Py.Ok (n + 1)).
Proof.
  intros Hfile Hlast Hsplit. unfold get_test_id.
  rewrite Hfile, Hlast, Hsplit. reflexivity.
Qed.

Lemma get_test_id_bad_field (fs : FS) (testpath content last_row rid : string)
    (fields : list string) :
  fs !! testpath = Some content ->
  last (Py.readlines content) = Some last_row ->
  Py.split "," last_row = rid :: fields ->
  ~ int_literal rid ->
  get_test_id fs testpath = Py.Raise Py.ValueError.
Proof.
  intros Hfile Hlast Hsplit Hbad.
  rewrite (get_test_id_field _ _ _ _ _ _ Hfile Hlast Hsplit).
  apply int_raises_iff in Hbad. rewrite Hbad. reflexivity.
Qed.

Lemma count_commas_app (a b : string) :
  count_commas (a +:+ b) = (count_commas a + count_commas b)%nat.
Proof.
  induction a as [|c a IH]; cbn [String.append count_commas]; [reflexivity |].
  rewrite IH. lia.
Qed.

(** C9.  On a file that exists [get_test_id] need not return: it raises
    [UnboundLocalError] when the file is empty and [ValueError] when the
    first comma-separated field of the last line is not a decimal
    integer, as in a file that holds the header row alone. *)
Theorem get_test_id_partial (fs : FS) (testpath content : string) :
  fs !! testpath = Some content ->
  (content = EmptyString ->
   get_test_id fs testpath = Py.Raise (Py.UnboundLocalError "line")) /\
  (forall (last_row rid : string) (fields : list string),
      last (Py.readlines content) = Some last_row ->
      Py.split "," last_row = rid :: fields ->
      ~ int_literal rid ->
      get_test_id fs testpath = Py.Raise Py.ValueError) /\
  (content = Csv.writerow csv_header ->
   get_test_id fs testpath = Py.Raise Py.ValueError).
Proof.
  intros Hfile. split; [| split].
  - intros ->. apply get_test_id_empty, Hfile.
  - intros last_row rid fields. apply get_test_id_bad_field, Hfile.
  - intros ->. unfold get_test_id. rewrite Hfile. reflexivity.
Qed.

Section Resume.

Variable float : Type.
Variable repr : float -> string.
Variable fromtimestamp : float -> datetime.

Lemma main_resume_raises (filename output : string)
    (tests : list (string * string)) (verbose : bool) (fs : FS)
    (reg : list (string * INA219)) (e : Py.exn) (env : list (event float)) :
  tests <> [] -> create_ina_map tests = Py.Ok reg ->
  get_test_id fs (log_path output filename) = Py.Raise e ->
  main repr fromtimestamp filename tests verbose output fs env = Uncaught e fs.
Proof.
  intros Htests Hreg Hid. unfold main.
  destruct tests; [congruence |].
  rewrite Hreg. fold (log_path output filename). rewrite Hid. reflexivity.
Qed.

(** A row of a sample has at least six commas. *)
Lemma sample_row_commas (line : string) :
  is_sample_row repr line ->
  (6 <= count_commas (line +:+ Csv.lineterminator))%nat.
Proof.
  intros [s <-]. unfold cells. rewrite writerow_seven.
  rewrite !count_commas_app. cbn [count_commas Ascii.eqb Bool.eqb]. lia.
Qed.

(** C2, as the code has it.  Only the first field of the last line is
    examined.  When the log exists and is empty, or that field is not a
    decimal integer, [get_test_id] raises ([UnboundLocalError], resp.
    [ValueError]); [main] has no handler for either, so the run ends
    before any sensor is read and the file system is untouched.  When
    the field is the integer [n] the identifier is [n + 1], whatever the
    rest of the line holds. *)
Theorem unparsable_log_is_fatal (filename output : string)
    (tests : list (string * string)) (verbose : bool) (fs : FS)
    (reg : list (string * INA219)) (content : string)
    (env : list (event float)) :
  tests <> [] -> create_ina_map tests = Py.Ok reg ->
  fs !! log_path output filename = Some content ->
  (content = EmptyString ->
   main repr fromtimestamp filename tests verbose output fs env
   = Uncaught (Py.UnboundLocalError "line") fs) /\
  (forall (last_row rid : string) (fields : list string),
      last (Py.readlines content) = Some last_row ->
      Py.split "," last_row = rid :: fields ->
      (~ int_literal rid ->
       main repr fromtimestamp filename tests verbose output fs env
       = Uncaught Py.ValueError fs) /\
      (forall n, Py.int_of_str 10 rid = Some n ->
                 get_test_id fs (log_path output filename) = Py.Ok (n + 1))).
Proof.
  intros Htests Hreg Hfile. split.
  - intros ->. apply (main_resume_raises _ _ _ _ _ reg); try assumption.
    apply get_test_id_empty, Hfile.
  - intros last_row rid fields Hlast Hsplit. split.
    + intros Hbad. apply (main_resume_raises _ _ _ _ _ reg); try assumption.
      exact (get_test_id_bad_field _ _ _ _ _ _ Hfile Hlast Hsplit Hbad).
    + intros n Hn.
      rewrite (get_test_id_field _ _ _ _ _ _ Hfile Hlast Hsplit).
      unfold Py.int. rewrite Hn. reflexivity.
Qed.

End Resume.

(** ** Sessions on the bench *)


Lemma no_flush_on_fault_witness :
  Bench.two_sensors <> [] /\
  create_ina_map Bench.two_sensors = Py.Ok Bench.registry /\
  get_test_id ∅ (log_path "out" "test") = Py.Ok 1 /\
  Bench.run "test" Bench.two_sensors false "out" ∅
    (map to_event [Bench.r1; Bench.r2; Bench.r3] ++ RangeError "overflow" :: [])
  = Exit 1 ∅.
Proof.
  assert (H1 : Bench.two_sensors <> []) by discriminate.
  assert (H2 : create_ina_map Bench.two_sensors = Py.Ok Bench.registry)
    by reflexivity.
  assert (H3 : get_test_id ∅ (log_path "out" "test") = Py.Ok 1) by reflexivity.
  split; [exact H1 |]. split; [exact H2 |]. split; [exact H3 |].
  exact (no_flush_on_fault Z Bench.repr Bench.fromtimestamp "test" "out"
           Bench.two_sensors false ∅ Bench.registry 1
           [Bench.r1; Bench.r2; Bench.r3] "overflow" [] H1 H2 H3).
Defined.


Lemma flush_on_cancel_witness :
  Bench.two_sensors <> [] /\
  create_ina_map Bench.two_sensors = Py.Ok Bench.registry /\
  get_test_id ∅ (log_path "out" "test") = Py.Ok 1 /\
  Forall (fun r => length r = length Bench.registry) [[Bench.r1; Bench.r2]] /\
  (length [Bench.r3] < length Bench.registry)%nat /\
  Bench.run "test" Bench.two_sensors false "out" ∅
    (events_of_rounds [[Bench.r1; Bench.r2]] ++ map to_event [Bench.r3]
     ++ Interrupt :: [])
  = Exit 0
      (write_to_csv Bench.repr csv_header
         (rounds_samples Bench.fromtimestamp Bench.registry 1 [[Bench.r1; Bench.r2]]
          ++ round_samples Bench.fromtimestamp Bench.registry
               (1 + Z.of_nat (length [[Bench.r1; Bench.r2]])) [Bench.r3])
         (log_path "out" "test") ∅).
Proof.
  assert (H1 : Bench.two_sensors <> []) by discriminate.
  assert (H2 : create_ina_map Bench.two_sensors = Py.Ok Bench.registry)
    by reflexivity.
  assert (H3 : get_test_id ∅ (log_path "out" "test") = Py.Ok 1) by reflexivity.
  assert (H4 : Forall (fun r => length r = length Bench.registry)
                 [[Bench.r1; Bench.r2]]) by (repeat constructor).
  assert (H5 : (length [Bench.r3] < length Bench.registry)%nat) by (cbn; lia).
  split; [exact H1 |]. split; [exact H2 |]. split; [exact H3 |].
  split; [exact H4 |]. split; [exact H5 |].
  exact (proj1 (flush_on_cancel Z Bench.repr Bench.fromtimestamp "test" "out"
                  Bench.two_sensors false ∅ Bench.registry 1
                  [[Bench.r1; Bench.r2]] [Bench.r3] [] H1 H2 H3 H4 H5)).
Defined.

(** C4 as stated fails: two sensors, one whole round, then the first
    sensor of the second round, then the interrupt.  The loop counter has
    advanced once, from 1 to 2, and three rows are flushed, not two. *)
Lemma flush_on_cancel_counterexample :
  let env := [to_event Bench.r1; to_event Bench.r2; to_event Bench.r3; Interrupt] in
  exists buffer,
    poll_loop Bench.fromtimestamp (S (length env)) Bench.registry 1 [] env
    = Raised Py.KeyboardInterrupt 2 buffer /\
    Bench.run "test" Bench.two_sensors false "out" ∅ env
    = Exit 0
        {[ "out/test.csv" :=
             Bench.header_text
             +:+ "1,a,1000.000,2024-01-01T00:00:01.000000,0.500,3.300,0.150"
             +:+ Csv.lineterminator
             +:+ "1,b,1000.500,2024-01-01T00:00:01.000500,0.600,3.301,0.151"
             +:+ Csv.lineterminator
             +:+ "2,a,2000.000,2024-01-01T00:00:02.000000,0.510,3.299,0.152"
             +:+ Csv.lineterminator ]} /\
    length buffer = 3%nat /\
    length buffer <> (Z.to_nat (2 - 1) * length Bench.registry)%nat.
Proof.
  eexists. split; [vm_compute; reflexivity |].
  split; [vm_compute; reflexivity |].
  split; [reflexivity | cbn; lia].
Qed.



Lemma header_idempotence_witness :
  fold_left (fun f samples => write_to_csv Bench.repr csv_header samples "out/test.csv" f)
    [[]; []; []] ∅
  = {[ "out/test.csv" := Bench.header_text ]}.
Proof.
  rewrite (proj1 (header_idempotence Z Bench.repr csv_header "out/test.csv" ∅
                    [] [[]; []])).
  vm_compute. reflexivity.
Defined.


Lemma get_test_id_partial_witness :
  get_test_id Bench.empty_log "out/test.csv"
  = Py.Raise (Py.UnboundLocalError "line") /\
  get_test_id Bench.word_log "out/test.csv" = Py.Raise Py.ValueError /\
  get_test_id Bench.header_log "out/test.csv" = Py.Raise Py.ValueError.
Proof.
  assert (H1 : Bench.empty_log !! "out/test.csv" = Some EmptyString)
    by (vm_compute; reflexivity).
  assert (H2 : Bench.word_log !! "out/test.csv"
               = Some (Bench.header_text +:+ "abc,1" +:+ Csv.lineterminator))
    by (vm_compute; reflexivity).
  assert (H3 : Bench.header_log !! "out/test.csv" = Some Bench.header_text)
    by (vm_compute; reflexivity).
  split; [| split].
  - apply (proj1 (get_test_id_partial _ _ _ H1)). reflexivity.
  - apply (proj1 (proj2 (get_test_id_partial _ _ _ H2))
             ("abc,1" +:+ Py.nl) "abc" ["1" +:+ Py.nl]).
    + vm_compute. reflexivity.
    + vm_compute. reflexivity.
    + apply int_raises_iff. reflexivity.
  - apply (proj2 (proj2 (get_test_id_partial _ _ _ H3))). reflexivity.
Defined.

Lemma unparsable_log_is_fatal_witness :
  Bench.run "test" Bench.two_sensors false "out" Bench.header_log
    [to_event Bench.r1; Interrupt]
  = Uncaught Py.ValueError Bench.header_log /\
  get_test_id Bench.cut_log (log_path "out" "test") = Py.Ok (4 + 1).
Proof.
  assert (H1 : Bench.two_sensors <> []) by discriminate.
  assert (H2 : create_ina_map Bench.two_sensors = Py.Ok Bench.registry)
    by reflexivity.
  assert (H3 : Bench.header_log !! log_path "out" "test" = Some Bench.header_text)
    by (vm_compute; reflexivity).
  assert (H4 : Bench.cut_log !! log_path "out" "test"
               = Some (Bench.header_text +:+ "4,a,truncated"))
    by (vm_compute; reflexivity).
  split.
  - apply (proj1 (proj2 (unparsable_log_is_fatal Z Bench.repr Bench.fromtimestamp
                    "test" "out" Bench.two_sensors false Bench.header_log
                    Bench.registry Bench.header_text
                    [to_event Bench.r1; Interrupt] H1 H2 H3)
                  ("test id,sensor label,timestamp epoch sec,timestamp datetime,power mW,supply voltage V,current mA" +:+ Py.nl)
                  "test id"
                  ["sensor label"; "timestamp epoch sec"; "timestamp datetime";
                   "power mW"; "supply voltage V"; "current mA" +:+ Py.nl]
                  ltac:(vm_compute; reflexivity) ltac:(vm_compute; reflexivity))).
    apply int_raises_iff. reflexivity.
  - apply (proj2 (proj2 (unparsable_log_is_fatal Z Bench.repr Bench.fromtimestamp
                    "test" "out" Bench.two_sensors false Bench.cut_log
                    Bench.registry (Bench.header_text +:+ "4,a,truncated") []
                    H1 H2 H4)
                  "4,a,truncated" "4" ["a"; "truncated"]
                  ltac:(vm_compute; reflexivity) ltac:(vm_compute; reflexivity))
             4).
    reflexivity.
Defined.

(** C2 as stated fails: the log ends in a row that was cut short after
    its third field and starts with 0.  That line is not a Sample row,
    yet [get_test_id] returns 1 and the collector numbers its first
    round 1 again. *)
Lemma corrupt_log_counterexample :
  Bench.zero_log !! "out/test.csv" = Some (Bench.header_text +:+ "0,a,1000.000") /\
  last (Py.readlines (Bench.header_text +:+ "0,a,1000.000")) = Some "0,a,1000.000" /\
  ~ is_sample_row Bench.repr "0,a,1000.000" /\
  get_test_id Bench.zero_log "out/test.csv" = Py.Ok 1 /\
  Bench.run "test" Bench.two_sensors false "out" Bench.zero_log [to_event Bench.r1]
  = StillRunning 1
      [sample_of Bench.fromtimestamp 1 ("a", create_ina 64) Bench.r1]
      Bench.zero_log.
Proof.
  split; [vm_compute; reflexivity |].
  split; [vm_compute; reflexivity |].
  split; [| split; vm_compute; reflexivity].
  intros H. apply sample_row_commas in H. vm_compute in H. lia.
Qed.

Lemma registry_collapses_duplicates_witness :
  Forall (fun t => is_Some (Py.int_of_str 16 (snd t))) Bench.repeated_label /\
  exists reg,
    create_ina_map Bench.repeated_label = Py.Ok reg /\
    dict_get "a" reg = Some (create_ina 68) /\
    (length reg < length Bench.repeated_label)%nat.
Proof.
  assert (H : Forall (fun t => is_Some (Py.int_of_str 16 (snd t)))
                Bench.repeated_label).
  { repeat (constructor; [eexists; vm_compute; reflexivity |]). constructor. }
  split; [exact H |].
  destruct (registry_collapses_duplicates Bench.repeated_label H)
    as (reg & Hreg & _ & _ & Hget & _ & Hlt).
  exists reg. split; [exact Hreg |]. split.
  - destruct (Hget "a") as (text & a & Htext & Ha & Hd).
    { vm_compute. apply list_elem_of_here. }
    vm_compute in Htext. injection Htext as <-.
    vm_compute in Ha. injection Ha as <-. exact Hd.
  - apply Hlt. intros Hnd. vm_compute in Hnd.
    apply NoDup_cons in Hnd as [Hnotin _]. apply Hnotin.
    apply list_elem_of_further, list_elem_of_here.
Defined.

(** * Further properties of the program *)

(** ** The log a flush leaves behind *)

Lemma complete_lines_app (a b : string) :
  b <> EmptyString -> complete_lines b = true -> complete_lines (a +:+ b) = true.
Proof.
  intros Hne Hb. induction a as [|c a IH]; [exact Hb |].
  cbn [String.append complete_lines].
  destruct (a +:+ b) eqn:E; [| exact IH].
  apply append_eq_nil in E as [_ ->]. congruence.
Qed.

Lemma complete_lines_app_nil (a b : string) :
  complete_lines a = true -> complete_lines b = true ->
  complete_lines (a +:+ b) = true.
Proof.
  intros Ha Hb. destruct b as [|c b]; [rewrite append_nil_r; exact Ha |].
  apply complete_lines_app; [discriminate | exact Hb].
Qed.

Lemma writerow_ends (fields : list string) :
  exists rec, Csv.writerow fields = rec +:+ Csv.lineterminator.
Proof.
  unfold Csv.writerow. destruct fields as [|f fields]; [eauto |].
  destruct (Csv.join (f :: fields)); eauto.
Qed.

Lemma writerow_complete (fields : list string) :
  complete_lines (Csv.writerow fields) = true.
Proof.
  destruct (writerow_ends fields) as [rec ->].
  apply complete_lines_app; [discriminate | reflexivity].
Qed.

Lemma one_line_escape (f : string) :
  one_line f = true -> one_line (Csv.escape f) = true.
Proof.
  unfold one_line. induction f as [|c f IH]; cbn [all_chars Csv.escape];
    [reflexivity |].
  rewrite andb_true_iff. intros [Hc Hf].
  destruct (Ascii.eqb c Csv.quotechar); cbn [all_chars]; rewrite Hc, ?IH; auto.
Qed.

Lemma one_line_join_append (f : string) :
  one_line f = true -> one_line (Csv.join_append f) = true.
Proof.
  intros Hf. unfold Csv.join_append.
  destruct (Csv.has_special f); [| exact Hf].
  pose proof (one_line_escape f Hf) as He.
  unfold one_line in *. cbn [String.append all_chars]. rewrite all_chars_app, He.
  reflexivity.
Qed.

Lemma one_line_str (n : Z) : one_line (Py.str n) = true.
Proof. exact (all_chars_impl _ _ _ int_char_not_newline (str_chars n)). Qed.

Section Flush.

Variable float : Type.
Variable repr : float -> string.

Lemma rows_text_complete (samples : list (sample float)) :
  complete_lines (rows_text repr samples) = true.
Proof.
  induction samples as [|s samples IH]; [reflexivity |].
  cbn [rows_text]. apply complete_lines_app_nil; [apply writerow_complete | exact IH].
Qed.

(** The row of a plain sample: the identifier, a comma, a rest without
    line break, the line terminator. *)
Lemma plain_row (s : sample float) :
  plain_sample repr s = true ->
  exists rest, one_line rest = true /\
    Csv.writerow (cells repr s)
    = Py.str (test_id s) +:+ "," +:+ rest +:+ Csv.lineterminator.
Proof.
  unfold plain_sample. rewrite !andb_true_iff.
  intros [[[[[Hl Ht] Hd] Hp] Hv] Hc].
  unfold cells. rewrite writerow_seven, join_append_str.
  exists (Csv.join_append (sensor_label s) +:+ ","
          +:+ Csv.join_append (repr (ts s)) +:+ ","
          +:+ Csv.join_append (dt s) +:+ ","
          +:+ Csv.join_append (repr (power s)) +:+ ","
          +:+ Csv.join_append (repr (supply_volt s)) +:+ ","
          +:+ Csv.join_append (repr (current s))).
  split; [| rewrite !append_assoc; reflexivity].
  apply one_line_join_append in Hl, Ht, Hd, Hp, Hv, Hc.
  unfold one_line in *. rewrite !all_chars_app, Hl, Ht, Hd, Hp, Hv, Hc.
  reflexivity.
Qed.

End Flush.

Section Resumable.

Variable float : Type.
Variable repr : float -> string.

Lemma row_first_char (s : sample float) :
  exists c t, Csv.writerow (cells repr s) = String c t /\ is_int_char c = true.
Proof.
  unfold cells. rewrite writerow_seven, join_append_str.
  destruct (str_nonempty (test_id s)) as (c & t & -> & Hc).
  cbn [String.append]. eauto.
Qed.

Lemma rows_text_not_LF (samples : list (sample float)) (t : string) :
  rows_text repr samples <> String Py.LF t.
Proof.
  destruct samples as [|s samples]; [discriminate |].
  cbn [rows_text]. destruct (row_first_char s) as (c & t' & -> & Hc).
  cbn [String.append]. intros [= -> _]. discriminate Hc.
Qed.

Lemma readlines_plain_row (s : sample float) :
  plain_sample repr s = true ->
  exists line, Py.readlines (Csv.writerow (cells repr s)) = [line].
Proof.
  intros Hs. destruct (plain_row float repr s Hs) as (rest & Hrest & ->).
  assert (Hrow : one_line (Py.str (test_id s) +:+ "," +:+ rest) = true).
  { unfold one_line in *. rewrite !all_chars_app.
    pose proof (one_line_str (test_id s)) as Hid. unfold one_line in Hid.
    rewrite Hid, Hrest. reflexivity. }
  pose proof (readlines_line _ Csv.lineterminator Hrow eq_refl) as H.
  rewrite !append_assoc in H. rewrite H.
  destruct (str_nonempty (test_id s)) as (c & t & -> & _).
  cbn [String.append]. eauto.
Qed.

Lemma readlines_rows (old : string) (samples : list (sample float)) :
  complete_lines old = true ->
  forallb (plain_sample repr) samples = true ->
  length (Py.readlines (old +:+ rows_text repr samples))
  = (length (Py.readlines old) + length samples)%nat.
Proof.
  intros Hold Hplain.
  rewrite (readlines_app_complete (String.length old));
    [| lia | exact Hold | intros t; apply rows_text_not_LF].
  rewrite length_app. f_equal. clear old Hold.
  induction samples as [|s samples IH]; [reflexivity |].
  cbn [forallb] in Hplain. apply andb_true_iff in Hplain as [Hs Hplain].
  cbn [rows_text length].
  rewrite (readlines_app_complete (String.length (Csv.writerow (cells repr s))));
    [| lia | apply writerow_complete | intros t; apply rows_text_not_LF].
  destruct (readlines_plain_row s Hs) as [line ->].
  cbn [app length]. rewrite (IH Hplain). reflexivity.
Qed.

(** What [get_test_id] reads from a log that ends in the rows of
    samples, the last of them plain. *)
Lemma resume_after_rows (base : string) (samples : list (sample float))
    (s : sample float) (testpath : string) (fs : FS) :
  complete_lines base = true ->
  plain_sample repr s = true ->
  fs !! testpath = Some (base +:+ rows_text repr (samples ++ [s])) ->
  get_test_id fs testpath = Py.Ok (test_id s + 1).
Proof.
  intros Hbase Hs Hfile.
  destruct (plain_row float repr s Hs) as (rest & Hrest & Hrow).
  apply (get_test_id_last_row _ _ (base +:+ rows_text repr samples) rest
           Csv.lineterminator);
    [| exact Hrest | reflexivity |].
  - apply complete_lines_app_nil; [exact Hbase | apply rows_text_complete].
  - rewrite Hfile, rows_text_app. cbn [rows_text].
    rewrite append_nil_r, Hrow, !append_assoc. reflexivity.
Qed.

Lemma flushed_complete (header : list string) (samples : list (sample float))
    (testpath : string) (fs : FS) :
  complete_lines (default EmptyString (fs !! testpath)) = true ->
  complete_lines (default (Csv.writerow header) (fs !! testpath)) = true /\
  complete_lines (flushed repr header samples testpath fs) = true.
Proof.
  intros Hold.
  assert (Hbase : complete_lines
                    (default (Csv.writerow header) (fs !! testpath)) = true).
  { destruct (fs !! testpath); [exact Hold | apply writerow_complete]. }
  split; [exact Hbase |]. unfold flushed.
  apply complete_lines_app_nil; [exact Hbase | apply rows_text_complete].
Qed.

(** X1.  Writing then resuming: after [write_to_csv] has appended at
    least one sample to a log that was missing or ended in a line break,
    [get_test_id] returns the identifier of the last sample written plus
    one, provided that sample's fields hold no line break. *)
Theorem flush_then_resume (header : list string)
    (samples : list (sample float)) (s : sample float)
    (testpath : string) (fs : FS) :
  complete_lines (default EmptyString (fs !! testpath)) = true ->
  plain_sample repr s = true ->
  get_test_id (write_to_csv repr header (samples ++ [s]) testpath fs) testpath
  = Py.Ok (test_id s + 1).
Proof.
  intros Hold Hs.
  destruct (flushed_complete header samples testpath fs Hold) as [Hbase _].
  apply (resume_after_rows _ samples s _ _ Hbase Hs).
  rewrite write_to_csv_spec. unfold flushed. apply (lookup_insert_eq fs).
Qed.

(** X2.  A flush keeps the log well formed: when the log was missing or
    ended in a line break, after [write_to_csv] it exists and ends in a
    line break (or is still empty), whatever the samples. *)
Theorem log_stays_complete (header : list string)
    (samples : list (sample float)) (testpath : string) (fs : FS) :
  complete_lines (default EmptyString (fs !! testpath)) = true ->
  exists content,
    write_to_csv repr header samples testpath fs !! testpath = Some content /\
    complete_lines content = true.
Proof.
  intros Hold. rewrite write_to_csv_spec.
  exists (flushed repr header samples testpath fs).
  split; [apply (lookup_insert_eq fs) |].
  apply (flushed_complete header samples testpath fs Hold).
Qed.

End Resumable.

Section LineCount.

Variable float : Type.
Variable repr : float -> string.

(** X3.  One line per row: when the log was missing or ended in a line
    break and no field of the samples holds a line break, a flush adds
    exactly one line per sample; a new log has one more line, the
    header. *)
Theorem log_line_count (samples : list (sample float)) (testpath : string)
    (fs : FS) :
  complete_lines (default EmptyString (fs !! testpath)) = true ->
  forallb (plain_sample repr) samples = true ->
  exists content,
    write_to_csv repr csv_header samples testpath fs !! testpath = Some content /\
    length (Py.readlines content)
    = (match fs !! testpath with
       | None => 1
       | Some old => length (Py.readlines old)
       end + length samples)%nat.
Proof.
  intros Hold Hplain. rewrite write_to_csv_spec. unfold flushed.
  rewrite (lookup_insert_eq fs).
  eexists. split; [reflexivity |].
  destruct (fs !! testpath) as [old|]; cbn [default] in *.
  - apply readlines_rows; assumption.
  - rewrite readlines_rows by (reflexivity || assumption). reflexivity.
Qed.

End LineCount.

(** ** From one session to the next *)

Lemma is_digit_not_newline (c : ascii) :
  is_digit c = true -> negb (is_newline c) = true.
Proof. destruct c as [[] [] [] [] [] [] [] []]; cbv; congruence. Qed.

Lemma one_line_zero_padded (width : nat) (n : Z) :
  one_line (zero_padded width n) = true.
Proof.
  revert n; induction width as [|w IH]; intros n; [reflexivity |].
  cbn [zero_padded]. unfold one_line in *. rewrite all_chars_app, IH.
  cbn [all_chars]. rewrite (is_digit_not_newline _ (digit_char_is_digit n)).
  reflexivity.
Qed.

Lemma one_line_strftime (d : datetime) : one_line (strftime d) = true.
Proof.
  unfold strftime.
  pose proof (one_line_str (year d)) as Hy.
  pose proof (one_line_zero_padded 2 (month d)) as Hm.
  pose proof (one_line_zero_padded 2 (day d)) as Hd.
  pose proof (one_line_zero_padded 2 (hour d)) as Hh.
  pose proof (one_line_zero_padded 2 (minute d)) as Hmi.
  pose proof (one_line_zero_padded 2 (second d)) as Hs.
  pose proof (one_line_zero_padded 6 (microsecond d)) as Hu.
  unfold one_line in *.
  rewrite !all_chars_app, Hy, Hm, Hd, Hh, Hmi, Hs, Hu. reflexivity.
Qed.

Section Restart.

Variable float : Type.
Variable repr : float -> string.
Variable fromtimestamp : float -> datetime.

Hypothesis repr_one_line : forall x, one_line (repr x) = true.

Lemma sample_of_plain (i : Z) (item : string * INA219) (r : reading float) :
  one_line (fst item) = true ->
  plain_sample repr (sample_of fromtimestamp i item r) = true.
Proof.
  intros Hl. destruct r as [[[t p] v] c]. unfold plain_sample, sample_of.
  cbn [sensor_label ts dt power supply_volt current].
  unfold convert_to_datetime.
  rewrite Hl, !repr_one_line, one_line_strftime. reflexivity.
Qed.

(** The sample a round appended last. *)
Lemma round_samples_last (items : list (string * INA219)) (j : Z)
    (rs : list (reading float)) :
  rs <> [] -> (length rs <= length items)%nat ->
  exists front item r,
    item ∈ items /\
    round_samples fromtimestamp items j rs
    = (front ++ [sample_of fromtimestamp j item r])%list.
Proof.
  revert items; induction rs as [|r rs IH]; intros items Hne Hlen; [congruence |].
  destruct items as [|item items]; [cbn in Hlen; lia |].
  destruct rs as [|r2 rs].
  - exists [], item, r. split; [apply list_elem_of_here |].
    destruct items; reflexivity.
  - destruct (IH items) as (front & item' & r' & Hin & Heq);
      [discriminate | cbn in *; lia |].
    exists (sample_of fromtimestamp j item r :: front), item', r'.
    split; [apply list_elem_of_further, Hin |].
    unfold round_samples in *. cbn [zip_with]. cbn [zip_with] in Heq.
    rewrite Heq. reflexivity.
Qed.

Lemma rounds_samples_snoc (items : list (string * INA219)) (i : Z)
    (rounds : list (list (reading float))) (r : list (reading float)) :
  rounds_samples fromtimestamp items i (rounds ++ [r])
  = (rounds_samples fromtimestamp items i rounds
     ++ round_samples fromtimestamp items (i + Z.of_nat (length rounds)) r)%list.
Proof.
  revert i; induction rounds as [|r0 rounds IH]; intros i.
  - cbn. rewrite app_nil_r, Z.add_0_r. reflexivity.
  - cbn [app rounds_samples length]. rewrite IH, <- app_assoc.
    do 3 f_equal. lia.
Qed.

(** The last sample of a session that buffered something, and its
    identifier. *)
Lemma session_last_sample (items : list (string * INA219)) (i : Z)
    (rounds : list (list (reading float))) (partial : list (reading float)) :
  items <> [] ->
  Forall (fun r => length r = length items) rounds ->
  (length partial < length items)%nat ->
  rounds <> [] \/ partial <> [] ->
  exists front item r,
    item ∈ items /\
    (rounds_samples fromtimestamp items i rounds
     ++ round_samples fromtimestamp items (i + Z.of_nat (length rounds)) partial)%list
    = (front ++ [sample_of fromtimestamp
                   (i + Z.of_nat (length rounds)
                    - match partial with [] => 1 | _ :: _ => 0 end)
                   item r])%list.
Proof.
  intros Hne Hrounds Hpartial Hsome.
  destruct partial as [|p partial].
  - destruct Hsome as [Hr|]; [| congruence].
    destruct (exists_last Hr) as (rounds' & r & ->).
    apply Forall_app in Hrounds as [_ Hlast].
    rewrite Forall_singleton in Hlast.
    destruct (round_samples_last items (i + Z.of_nat (length rounds')) r)
      as (front & item & x & Hin & Heq).
    { intros ->. destruct items; [congruence | cbn in Hlast; lia]. }
    { cbn in Hlast. lia. }
    exists (rounds_samples fromtimestamp items i rounds' ++ front)%list, item, x.
    split; [exact Hin |].
    rewrite rounds_samples_snoc, Heq. cbn [round_samples zip_with].
    destruct items; [congruence |]. cbn [zip_with].
    rewrite app_nil_r, <- app_assoc, length_app. cbn [length].
    replace (i + Z.of_nat (length rounds' + 1) - 1)
      with (i + Z.of_nat (length rounds')) by lia.
    reflexivity.
  - destruct (round_samples_last items (i + Z.of_nat (length rounds)) (p :: partial))
      as (front & item & x & Hin & Heq); [discriminate | lia |].
    exists (rounds_samples fromtimestamp items i rounds ++ front)%list, item, x.
    split; [exact Hin |].
    rewrite Heq, <- app_assoc, Z.sub_0_r. reflexivity.
Qed.

(** X4.  Identifier continuity across a restart: a cancelled session
    that buffered at least one sample leaves a log from which the next
    start resumes at the last identifier written plus one, which is the
    old identifier plus the number of whole rounds, plus one more when
    the interrupt cut a round short.  The log again ends in a line
    break.  Labels and rendered numbers are free of line breaks, and the
    log was missing or ended in a line break. *)
Theorem restart_continues_numbering (filename output : string)
    (tests : list (string * string)) (verbose : bool) (fs : FS)
    (reg : list (string * INA219)) (i : Z)
    (rounds : list (list (reading float))) (partial : list (reading float))
    (rest : list (event float)) :
  tests <> [] -> create_ina_map tests = Py.Ok reg ->
  get_test_id fs (log_path output filename) = Py.Ok i ->
  complete_lines (default EmptyString (fs !! log_path output filename)) = true ->
  forallb (fun item => one_line (fst item)) reg = true ->
  Forall (fun r => length r = length reg) rounds ->
  (length partial < length reg)%nat ->
  rounds <> [] \/ partial <> [] ->
  exists fs',
    main repr fromtimestamp filename tests verbose output fs
      (events_of_rounds rounds ++ map to_event partial ++ Interrupt :: rest)
    = Exit 0 fs' /\
    get_test_id fs' (log_path output filename)
    = Py.Ok (i + Z.of_nat (length rounds)
             + match partial with [] => 0 | _ :: _ => 1 end) /\
    complete_lines (default EmptyString (fs' !! log_path output filename)) = true.
Proof.
  intros Htests Hreg Hid Hold Hlabels Hrounds Hpartial Hsome.
  assert (Hne : reg <> []).
  { apply (create_ina_map_from_nonempty tests [] reg Hreg). right. exact Htests. }
  eexists. split.
  { exact (main_session float repr fromtimestamp filename output tests verbose
             fs reg i rounds partial (Interrupt :: rest)
             Htests Hreg Hid Hrounds Hpartial eq_refl). }
  destruct (session_last_sample reg i rounds partial Hne Hrounds Hpartial Hsome)
    as (front & item & r & Hin & ->).
  set (s := sample_of fromtimestamp
              (i + Z.of_nat (length rounds)
               - match partial with [] => 1 | _ :: _ => 0 end) item r).
  assert (Hplain : plain_sample repr s = true).
  { apply sample_of_plain.
    rewrite forallb_forall in Hlabels. apply Hlabels, list_elem_of_In, Hin. }
  rewrite write_to_csv_spec, (lookup_insert_eq fs).
  destruct (flushed_complete float repr csv_header (front ++ [s])
              (log_path output filename) fs Hold) as [Hbase Hcomplete].
  split; [| exact Hcomplete].
  rewrite (resume_after_rows float repr _ front s (log_path output filename)
             (<[log_path output filename :=
                  flushed repr csv_header (front ++ [s])
                    (log_path output filename) fs]> fs)
             Hbase Hplain (lookup_insert_eq fs _ _)).
  subst s. destruct r as [[[t p] v] c]. cbn [sample_of test_id].
  f_equal. destruct partial; lia.
Qed.

(** X5.  Cancelling before the first sample on a new log leaves a file
    that holds the header row alone, and every later start on that file
    ends in an uncaught [ValueError] without touching it. *)
Theorem cancel_before_first_sample (filename output : string)
    (tests : list (string * string)) (verbose : bool) (fs : FS)
    (reg : list (string * INA219)) (rest env : list (event float)) :
  tests <> [] -> create_ina_map tests = Py.Ok reg ->
  fs !! log_path output filename = None ->
  let fs' := <[log_path output filename := Csv.writerow csv_header]> fs in
  main repr fromtimestamp filename tests verbose output fs (Interrupt :: rest)
  = Exit 0 fs' /\
  main repr fromtimestamp filename tests verbose output fs' env
  = Uncaught Py.ValueError fs'.
Proof.
  intros Htests Hreg Hnone fs'.
  assert (Hne : reg <> []).
  { apply (create_ina_map_from_nonempty tests [] reg Hreg). right. exact Htests. }
  assert (Hid : get_test_id fs (log_path output filename) = Py.Ok 1).
  { unfold get_test_id. rewrite Hnone. reflexivity. }
  split.
  - pose proof (main_session float repr fromtimestamp filename output tests
                  verbose fs reg 1 [] [] (Interrupt :: rest) Htests Hreg Hid) as H.
    cbn [events_of_rounds map concat app rounds_samples round_samples] in H.
    rewrite H; [| constructor | destruct reg; [congruence | cbn; lia] | reflexivity].
    rewrite write_to_csv_spec. unfold flushed. rewrite Hnone.
    destruct reg; cbn [zip_with rounds_samples app rows_text default];
      rewrite append_nil_r; reflexivity.
  - apply (main_resume_raises float repr fromtimestamp _ _ _ _ _ reg);
      [exact Htests | exact Hreg |].
    unfold get_test_id, fs'. rewrite (lookup_insert_eq fs). reflexivity.
Qed.

End Restart.

(** ** How a start can fail, and what a run can do *)

Lemma split_nonempty (sep : ascii) (s : string) : Py.split sep s <> [].
Proof.
  destruct s as [|c s]; cbn [Py.split]; [discriminate |].
  destruct (Ascii.eqb c sep); [discriminate |].
  destruct (Py.split sep s); discriminate.
Qed.

Lemma get_test_id_raises_inv (fs : FS) (testpath : string) (e : Py.exn) :
  get_test_id fs testpath = Py.Raise e ->
  exists content,
    fs !! testpath = Some content /\
    ((content = EmptyString /\ e = Py.UnboundLocalError "line") \/
     (exists (last_row rid : string) (fields : list string),
        last (Py.readlines content) = Some last_row /\
        Py.split "," last_row = rid :: fields /\
        ~ int_literal rid /\ e = Py.ValueError)).
Proof.
  unfold get_test_id.
  destruct (fs !! testpath) as [content|] eqn:Hfile; [| discriminate].
  intros H. exists content. split; [reflexivity |].
  destruct (last (Py.readlines content)) as [last_row|] eqn:Hlast.
  - right. destruct (Py.split "," last_row) as [|rid fields] eqn:Hsplit.
    { exfalso. exact (split_nonempty _ _ Hsplit). }
    exists last_row, rid, fields.
    split; [reflexivity |]. split; [exact Hsplit |].
    assert (Hint : Py.int rid = Py.Raise Py.ValueError /\ e = Py.ValueError).
    { unfold Py.int in *. destruct (Py.int_of_str 10 rid); [discriminate |].
      cbn in H. split; congruence. }
    destruct Hint as [Hint ->]. split; [| reflexivity].
    apply int_raises_iff, Hint.
  - left. apply last_None in Hlast. apply readlines_nil in Hlast.
    split; [exact Hlast | congruence].
Qed.

(** X6.  [get_test_id] fails in two ways only: with [UnboundLocalError]
    exactly when the file exists and is empty, and with [ValueError]
    exactly when the first comma-separated field of its last line is not
    a decimal integer.  In every other case it returns. *)
Theorem get_test_id_raises_iff (fs : FS) (testpath : string) (e : Py.exn) :
  get_test_id fs testpath = Py.Raise e <->
  exists content,
    fs !! testpath = Some content /\
    ((content = EmptyString /\ e = Py.UnboundLocalError "line") \/
     (exists (last_row rid : string) (fields : list string),
        last (Py.readlines content) = Some last_row /\
        Py.split "," last_row = rid :: fields /\
        ~ int_literal rid /\ e = Py.ValueError)).
Proof.
  split; [apply get_test_id_raises_inv |].
  intros (content & Hfile & [[-> ->] | (last_row & rid & fields & Hl & Hs & Hbad & ->)]).
  - apply get_test_id_empty, Hfile.
  - exact (get_test_id_bad_field _ _ _ _ _ _ Hfile Hl Hs Hbad).
Qed.


Lemma create_ina_map_from_bad (tests : list (string * string))
    (d : list (string * INA219)) :
  Exists (fun t => Py.int_of_str 16 (snd t) = None) tests ->
  create_ina_map_from tests d = Py.Raise Py.ValueError.
Proof.
  intros Hbad; revert d.
  induction tests as [|[test a] tests IH]; intros d; [inversion Hbad |].
  cbn [create_ina_map_from]. unfold Py.int16.
  destruct (Py.int_of_str 16 a) as [z|] eqn:Ha; cbn [Py.bind]; [| reflexivity].
  apply IH. inversion Hbad as [? ? H|? ? H]; subst; [| exact H].
  cbn in H. congruence.
Qed.

Section Outcomes.

Variable float : Type.
Variable repr : float -> string.
Variable fromtimestamp : float -> datetime.

(** X7.  One address that is not a hexadecimal integer makes
    [create_ina_map] raise [ValueError], whatever the other entries are:
    no registry is returned, and [main] ends uncaught before it looks at
    the log or reads a sensor. *)
Theorem bad_address_is_fatal (filename output : string)
    (tests : list (string * string)) (verbose : bool) (fs : FS)
    (env : list (event float)) :
  Exists (fun t => Py.int_of_str 16 (snd t) = None) tests ->
  create_ina_map tests = Py.Raise Py.ValueError /\
  main repr fromtimestamp filename tests verbose output fs env
  = Uncaught Py.ValueError fs.
Proof.
  intros Hbad.
  pose proof (create_ina_map_from_bad tests [] Hbad) as Hraise.
  split; [exact Hraise |].
  unfold main. destruct tests as [|t tests]; [inversion Hbad |].
  unfold create_ina_map. rewrite Hraise. reflexivity.
Qed.


End Outcomes.

(** ** The registry keeps the configured order *)

Lemma create_ina_map_from_keys (tests : list (string * string))
    (d reg : list (string * INA219)) :
  create_ina_map_from tests d = Py.Ok reg ->
  map fst reg
  = (map fst d
     ++ filter (fun l => l ∉ map fst d) (first_occurrences (map fst tests)))%list.
Proof.
  revert d; induction tests as [|[k a] tests IH]; intros d.
  - cbn. intros [= <-]. rewrite app_nil_r. reflexivity.
  - cbn [create_ina_map_from]. unfold Py.int16.
    destruct (Py.int_of_str 16 a) as [z|]; cbn [Py.bind]; [| discriminate].
    intros H. rewrite (IH _ H), dict_set_keys.
    cbn [map fst first_occurrences].
    destruct (decide (k ∈ map fst d)) as [Hin|Hout].
    + rewrite filter_cons_False by (intros Hk; exact (Hk Hin)).
      rewrite list_filter_filter_l; [reflexivity |].
      intros x Hx ->. exact (Hx Hin).
    + rewrite filter_cons_True by exact Hout.
      rewrite <- app_assoc. cbn [app]. do 2 f_equal.
      rewrite list_filter_filter. apply list_filter_iff.
      intros x. rewrite elem_of_app, list_elem_of_singleton. tauto.
Qed.

Lemma filter_not_in_nil (l : list string) :
  filter (fun x => x ∉ @nil string) l = l.
Proof.
  induction l as [|x l IH]; [reflexivity |].
  rewrite filter_cons_True by apply not_elem_of_nil. rewrite IH. reflexivity.
Qed.

Lemma first_occurrences_subset (l : list string) (x : string) :
  x ∈ first_occurrences l -> x ∈ l.
Proof.
  induction l as [|y l IH]; cbn [first_occurrences]; [auto |].
  rewrite !elem_of_cons, list_elem_of_filter. intros [->|[_ H]]; auto.
Qed.

Lemma first_occurrences_NoDup (l : list string) :
  NoDup l -> first_occurrences l = l.
Proof.
  induction l as [|x l IH]; [reflexivity |].
  intros [Hx Hl]%NoDup_cons. cbn [first_occurrences]. rewrite (IH Hl).
  f_equal. clear IH Hl.
  induction l as [|y l IH]; [reflexivity |].
  apply not_elem_of_cons in Hx as [Hne Hx].
  rewrite filter_cons_True by congruence. rewrite (IH Hx). reflexivity.
Qed.

(** X9.  The registry lists the labels in the order in which they first
    occur on the command line, which is the order in which every round
    polls the sensors; when no label is repeated it is the configured
    order itself. *)
Theorem registry_order (tests : list (string * string))
    (reg : list (string * INA219)) :
  create_ina_map tests = Py.Ok reg ->
  map fst reg = first_occurrences (map fst tests) /\
  (NoDup (map fst tests) -> map fst reg = map fst tests).
Proof.
  intros Hreg.
  pose proof (create_ina_map_from_keys tests [] reg Hreg) as Hkeys.
  cbn [map app] in Hkeys. rewrite filter_not_in_nil in Hkeys.
  split; [exact Hkeys |].
  intros Hnd. rewrite Hkeys. apply first_occurrences_NoDup, Hnd.
Qed.

Lemma dict_set_fresh {V : Type} (k : string) (v : V) (d : list (string * V)) :
  k ∉ map fst d -> dict_set k v d = (d ++ [(k, v)])%list.
Proof.
  induction d as [|[k' v'] d IH]; cbn [dict_set map fst app]; [reflexivity |].
  rewrite not_elem_of_cons. intros [Hne Hout].
  destruct (String.eqb k' k) eqn:E.
  - apply String.eqb_eq in E. congruence.
  - rewrite (IH Hout). reflexivity.
Qed.

Lemma create_ina_map_from_distinct (tests : list (string * string))
    (d reg : list (string * INA219)) :
  NoDup (map fst d ++ map fst tests) ->
  create_ina_map_from tests d = Py.Ok reg ->
  exists new,
    reg = (d ++ new)%list /\
    Forall2 (fun t e => fst e = fst t /\
                        Py.int16 (snd t) = Py.Ok (address (snd e)) /\
                        snd e = create_ina (address (snd e)))
      tests new.
Proof.
  revert d; induction tests as [|[k a] tests IH]; intros d Hnd.
  - cbn. intros [= <-]. exists []. rewrite app_nil_r. split; [reflexivity | constructor].
  - cbn [create_ina_map_from]. unfold Py.int16 at 1.
    destruct (Py.int_of_str 16 a) as [z|] eqn:Ha; cbn [Py.bind]; [| discriminate].
    cbn [map fst] in Hnd.
    assert (Hk : k ∉ map fst d).
    { apply NoDup_app in Hnd as (_ & Hdisj & _).
      intros Hin. apply (Hdisj k Hin). apply list_elem_of_here. }
    rewrite (dict_set_fresh k _ d Hk). intros H.
    destruct (IH (d ++ [(k, create_ina z)])%list) as (new & -> & Hall).
    { rewrite map_app. cbn [map fst]. rewrite <- app_assoc. exact Hnd. }
    { exact H. }
    exists ((k, create_ina z) :: new). rewrite <- app_assoc.
    split; [reflexivity |]. constructor; [| exact Hall].
    cbn [fst snd create_ina address]. unfold Py.int16. rewrite Ha. auto.
Qed.

(** X10.  With no repeated label, the registry mirrors the command line
    entry by entry: the k-th registry entry has the k-th label and the
    handle [create_ina] builds from the k-th address. *)
Theorem registry_mirrors_distinct_entries (tests : list (string * string))
    (reg : list (string * INA219)) :
  NoDup (map fst tests) ->
  create_ina_map tests = Py.Ok reg ->
  Forall2 (fun t e => fst e = fst t /\
                      Py.int16 (snd t) = Py.Ok (address (snd e)) /\
                      snd e = create_ina (address (snd e)))
    tests reg.
Proof.
  intros Hnd Hreg.
  destruct (create_ina_map_from_distinct tests [] reg Hnd Hreg) as (new & -> & H).
  exact H.
Qed.

(** ** The order of the buffer *)

Section Order.

Variable float : Type.
Variable repr : float -> string.
Variable fromtimestamp : float -> datetime.

(** A pass over the registry only appends, and only samples with the
    identifier of the round. *)
Lemma poll_round_appends (items : list (string * INA219)) (i : Z)
    (samples : list (sample float)) (env : list (event float)) :
  exists new,
    round_buffer (poll_round fromtimestamp items i samples env)
    = (samples ++ new)%list /\
    Forall (fun s => test_id s = i) new.
Proof.
  revert samples env; induction items as [|[label ina] items IH];
    intros samples env; cbn [poll_round].
  - exists []. rewrite app_nil_r. split; [reflexivity | constructor].
  - destruct env as [|[t p v c|msg|] env];
      try (exists []; rewrite app_nil_r; split; [reflexivity | constructor]).
    destruct (IH (samples ++ [Sample i label t (convert_to_datetime fromtimestamp t) p v c])%list env)
      as (new & -> & Hnew).
    exists (Sample i label t (convert_to_datetime fromtimestamp t) p v c :: new).
    rewrite <- app_assoc. split; [reflexivity |].
    constructor; [reflexivity | exact Hnew].
Qed.

Lemma poll_loop_ordered (fuel : nat) (items : list (string * INA219))
    (i0 i : Z) (samples : list (sample float)) (env : list (event float)) :
  i0 <= i ->
  StronglySorted Z.le (map test_id samples) ->
  Forall (fun s => i0 <= test_id s <= i) samples ->
  let '(j, buffer) := loop_state (poll_loop fromtimestamp fuel items i samples env) in
  i <= j /\
  StronglySorted Z.le (map test_id buffer) /\
  Forall (fun s => i0 <= test_id s <= j) buffer.
Proof.
  revert i samples env; induction fuel as [|fuel IH];
    intros i samples env Hi Hsorted Hrange.
  - cbn. split; [lia | auto].
  - cbn [poll_loop].
    destruct (poll_round_appends items i samples env) as (new & Hbuf & Hnew).
    assert (Hsorted' : StronglySorted Z.le (map test_id (samples ++ new))).
    { rewrite map_app. apply StronglySorted_app_2; [| exact Hsorted |].
      - intros x y Hx Hy.
        apply list_elem_of_fmap in Hx as (sx & -> & Hx).
        apply list_elem_of_fmap in Hy as (sy & -> & Hy).
        rewrite Forall_forall in Hrange, Hnew.
        specialize (Hrange _ Hx). specialize (Hnew _ Hy). lia.
      - clear -Hnew. induction Hnew as [|s new Hs Hnew IHn]; cbn [map];
          constructor; [exact IHn |].
        apply Forall_forall. intros y Hy.
        apply list_elem_of_fmap in Hy as (sy & -> & Hy).
        rewrite Forall_forall in Hnew. specialize (Hnew _ Hy). lia. }
    assert (Hrange' : forall j, i <= j ->
              Forall (fun s => i0 <= test_id s <= j) (samples ++ new)).
    { intros j Hj. apply Forall_app. split.
      - eapply Forall_impl; [exact Hrange |]. cbn. intros; lia.
      - eapply Forall_impl; [exact Hnew |]. cbn. intros; lia. }
    destruct (poll_round fromtimestamp items i samples env)
      as [samples' env'|e samples'|samples']; cbn [round_buffer] in Hbuf; subst samples'.
    + specialize (IH (i + 1) (samples ++ new)%list env' ltac:(lia) Hsorted'
                    (Hrange' (i + 1) ltac:(lia))).
      destruct (loop_state (poll_loop fromtimestamp fuel items (i + 1)
                              (samples ++ new) env')) as [j buffer].
      destruct IH as (Hj & Hs & Hr). split; [lia | auto].
    + cbn [loop_state]. split; [lia |]. split; [exact Hsorted' |].
      apply Hrange'. lia.
    + cbn [loop_state]. split; [lia |]. split; [exact Hsorted' |].
      apply Hrange'. lia.
Qed.

(** X11.  Whatever the events are and wherever the loop stands or stops,
    the identifiers in the buffer never decrease along the buffer, the
    first is not below the identifier the loop started with, and none
    exceeds the current one. *)
Theorem buffer_ids_ordered (fuel : nat) (items : list (string * INA219))
    (i : Z) (env : list (event float)) :
  let '(j, buffer) := loop_state (poll_loop fromtimestamp fuel items i [] env) in
  i <= j /\
  StronglySorted Z.le (map test_id buffer) /\
  Forall (fun s => i <= test_id s <= j) buffer.
Proof.
  apply (poll_loop_ordered fuel items i i [] env); [lia | constructor | constructor].
Qed.

Lemma rounds_labels (items : list (string * INA219)) (i : Z)
    (rounds : list (list (reading float))) :
  Forall (fun r => length r = length items) rounds ->
  map sensor_label (rounds_samples fromtimestamp items i rounds)
  = concat (replicate (length rounds) (map fst items)).
Proof.
  intros H; revert i; induction H as [|r rounds Hr _ IH]; intros i;
    [reflexivity |].
  cbn [rounds_samples length replicate concat].
  rewrite map_app, IH, (round_samples_labels float fromtimestamp items i r Hr).
  reflexivity.
Qed.

Lemma partial_labels (items : list (string * INA219)) (j : Z)
    (rs : list (reading float)) :
  map sensor_label (round_samples fromtimestamp items j rs)
  = take (length rs) (map fst items).
Proof.
  revert rs; induction items as [|item items IH]; intros [|[[[t p] v] c] rs];
    try reflexivity.
  cbn. f_equal. apply IH.
Qed.

(** X12.  The labels in the buffer repeat the registry order round after
    round: after [N] whole rounds and [k] samples of the next, the labels
    of the buffer the interrupt finds are [N] copies of the registry's
    labels followed by its first [k] labels. *)
Theorem buffer_labels_cycle (items : list (string * INA219)) (i : Z)
    (rounds : list (list (reading float))) (partial : list (reading float))
    (rest : list (event float)) :
  items <> [] ->
  Forall (fun r => length r = length items) rounds ->
  (length partial < length items)%nat ->
  let env :=
    (events_of_rounds rounds ++ map to_event partial ++ Interrupt :: rest)%list in
  exists j buffer,
    poll_loop fromtimestamp (S (length env)) items i [] env
    = Raised Py.KeyboardInterrupt j buffer /\
    map sensor_label buffer
    = (concat (replicate (length rounds) (map fst items))
       ++ take (length partial) (map fst items))%list.
Proof.
  intros Hne Hrounds Hpartial env.
  eexists _, _. split.
  - exact (poll_loop_session float fromtimestamp items rounds partial
             (Interrupt :: rest) i _ Hne Hrounds Hpartial eq_refl
             (Nat.lt_succ_diag_r _)).
  - rewrite map_app, rounds_labels, partial_labels by assumption. reflexivity.
Qed.

(** X13.  Cancelling before the first sample when the log exists and can
    be resumed changes nothing: [main] exits with status 0 and the file
    system is what it was. *)
Theorem cancel_before_first_sample_keeps_log (filename output : string)
    (tests : list (string * string)) (verbose : bool) (fs : FS)
    (reg : list (string * INA219)) (i : Z) (content : string)
    (rest : list (event float)) :
  tests <> [] -> create_ina_map tests = Py.Ok reg ->
  fs !! log_path output filename = Some content ->
  get_test_id fs (log_path output filename) = Py.Ok i ->
  main repr fromtimestamp filename tests verbose output fs (Interrupt :: rest)
  = Exit 0 fs.
Proof.
  intros Htests Hreg Hfile Hid.
  assert (Hne : reg <> []).
  { apply (create_ina_map_from_nonempty tests [] reg Hreg). right. exact Htests. }
  pose proof (main_session float repr fromtimestamp filename output tests
                verbose fs reg i [] [] (Interrupt :: rest) Htests Hreg Hid) as H.
  cbn [events_of_rounds map concat app rounds_samples] in H.
  rewrite H; [| constructor | destruct reg; [congruence | cbn; lia] | reflexivity].
  f_equal. rewrite write_to_csv_spec. unfold flushed. rewrite Hfile.
  destruct reg; cbn [round_samples zip_with app rows_text default];
    rewrite append_nil_r; apply insert_id; exact Hfile.
Qed.

End Order.

(** ** The formatted time loses nothing *)

Lemma has_format_app_inv (fmt s1 s2 r1 r2 : string) :
  has_format fmt s1 = true -> has_format fmt s2 = true ->
  s1 +:+ r1 = s2 +:+ r2 -> s1 = s2 /\ r1 = r2.
Proof.
  revert s1 s2; induction fmt as [|p fmt IH]; intros [|c1 s1] [|c2 s2];
    cbn [has_format]; try discriminate; [auto |].
  rewrite !andb_true_iff. intros [_ H1] [_ H2]. cbn [String.append].
  intros [= -> H]. destruct (IH _ _ H1 H2 H) as [-> ->]. auto.
Qed.

Lemma append_last_inj (s1 s2 : string) (c1 c2 : ascii) :
  s1 +:+ String c1 EmptyString = s2 +:+ String c2 EmptyString ->
  s1 = s2 /\ c1 = c2.
Proof.
  revert s2; induction s1 as [|x s1 IH]; intros [|y s2]; cbn [String.append].
  - intros [= ->]. auto.
  - intros [= -> H]. destruct s2; discriminate H.
  - intros [= -> H]. destruct s1; discriminate H.
  - intros [= -> H]. destruct (IH _ H) as [-> ->]. auto.
Qed.

Lemma digit_char_inj (a b : Z) :
  digit_char a = digit_char b -> a mod 10 = b mod 10.
Proof.
  unfold digit_char. intros H.
  pose proof (Z.mod_pos_bound a 10 eq_refl) as Ha.
  pose proof (Z.mod_pos_bound b 10 eq_refl) as Hb.
  apply (f_equal nat_of_ascii) in H.
  rewrite !nat_ascii_embedding in H by lia. lia.
Qed.

Lemma zero_padded_inj (width : nat) (a b : Z) :
  0 <= a < 10 ^ Z.of_nat width -> 0 <= b < 10 ^ Z.of_nat width ->
  zero_padded width a = zero_padded width b -> a = b.
Proof.
  revert a b; induction width as [|w IH]; intros a b Ha Hb.
  - cbn in Ha, Hb. lia.
  - rewrite Nat2Z.inj_succ, Z.pow_succ_r in Ha, Hb by lia.
    cbn [zero_padded]. intros H.
    apply append_last_inj in H as [Hdiv Hmod].
    apply digit_char_inj in Hmod.
    apply IH in Hdiv;
      [| split; [apply Z.div_pos; lia | apply Z.div_lt_upper_bound; lia]
       | split; [apply Z.div_pos; lia | apply Z.div_lt_upper_bound; lia]].
    rewrite (Z.div_mod a 10), (Z.div_mod b 10) by lia. congruence.
Qed.

Lemma str_inj (a b : Z) : Py.str a = Py.str b -> a = b.
Proof.
  intros H. pose proof (int_of_str_str a) as Ha.
  rewrite H, int_of_str_str in Ha. congruence.
Qed.

Lemma strftime_inj (d1 d2 : datetime) :
  datetime_ok d1 -> datetime_ok d2 ->
  strftime d1 = strftime d2 -> d1 = d2.
Proof.
  intros (Hy1 & Hm1 & Hd1 & Hh1 & Hmi1 & Hs1 & Hu1)
         (Hy2 & Hm2 & Hd2 & Hh2 & Hmi2 & Hs2 & Hu2).
  unfold strftime. intros H.
  apply (has_format_app_inv "YYYY") in H as [Hy H];
    [| apply year_format; assumption | apply year_format; assumption].
  apply (has_format_app_inv "-") in H as [_ H]; [| reflexivity | reflexivity].
  apply (has_format_app_inv "MM") in H as [Hm H];
    [| apply two_digits; reflexivity | apply two_digits; reflexivity].
  apply (has_format_app_inv "-") in H as [_ H]; [| reflexivity | reflexivity].
  apply (has_format_app_inv "DD") in H as [Hd H];
    [| apply two_digits; reflexivity | apply two_digits; reflexivity].
  apply (has_format_app_inv "T") in H as [_ H]; [| reflexivity | reflexivity].
  apply (has_format_app_inv "HH") in H as [Hh H];
    [| apply two_digits; reflexivity | apply two_digits; reflexivity].
  apply (has_format_app_inv ":") in H as [_ H]; [| reflexivity | reflexivity].
  apply (has_format_app_inv "MM") in H as [Hmi H];
    [| apply two_digits; reflexivity | apply two_digits; reflexivity].
  apply (has_format_app_inv ":") in H as [_ H]; [| reflexivity | reflexivity].
  apply (has_format_app_inv "SS") in H as [Hs H];
    [| apply two_digits; reflexivity | apply two_digits; reflexivity].
  apply (has_format_app_inv ".") in H as [_ Hu]; [| reflexivity | reflexivity].
  apply str_inj in Hy.
  apply zero_padded_inj in Hm, Hd, Hh, Hmi, Hs, Hu;
    try (change (10 ^ Z.of_nat 2) with 100);
    try (change (10 ^ Z.of_nat 6) with 1000000); try lia.
  destruct d1, d2; cbn in *; congruence.
Qed.

(** X14.  [convert_to_datetime] loses nothing of the local time: two
    timestamps that it renders alike have the same broken-down local
    time, down to the microsecond, when both fall within the four-digit
    years. *)
Theorem formatted_time_injective (float : Type)
    (fromtimestamp : float -> datetime) (t1 t2 : float) :
  datetime_ok (fromtimestamp t1) -> datetime_ok (fromtimestamp t2) ->
  convert_to_datetime fromtimestamp t1 = convert_to_datetime fromtimestamp t2 ->
  fromtimestamp t1 = fromtimestamp t2.
Proof. unfold convert_to_datetime. apply strftime_inj. Qed.

(** ** A log that does not end in a line break *)

Section Glued.

Variable float : Type.
Variable repr : float -> string.

(** X15.  When the log's last line has no line break, the first row a
    flush appends continues that line.  If the flush appends one sample
    only, the last line still starts with the old identifier, so the next
    start resumes at the same identifier as before the flush. *)
Theorem glued_row_repeats_identifier (header : list string) (s : sample float)
    (testpath before rest : string) (n : Z) (fs : FS) :
  complete_lines before = true -> one_line rest = true ->
  fs !! testpath = Some (before +:+ Py.str n +:+ "," +:+ rest) ->
  plain_sample repr s = true ->
  get_test_id fs testpath = Py.Ok (n + 1) /\
  get_test_id (write_to_csv repr header [s] testpath fs) testpath
  = Py.Ok (n + 1).
Proof.
  intros Hbefore Hrest Hfile Hs. split.
  - apply (get_test_id_last_row fs testpath before rest EmptyString n);
      [assumption | assumption | reflexivity |].
    rewrite append_nil_r. exact Hfile.
  - destruct (plain_row float repr s Hs) as (rest' & Hrest' & Hrow).
    apply (get_test_id_last_row _ testpath before
             (rest +:+ Py.str (test_id s) +:+ "," +:+ rest')
             Csv.lineterminator n);
      [assumption | | reflexivity |].
    + pose proof (one_line_str (test_id s)) as Hid.
      unfold one_line in *. rewrite !all_chars_app, Hrest, Hid, Hrest'.
      reflexivity.
    + rewrite write_to_csv_spec. unfold flushed.
      rewrite (lookup_insert_eq fs), Hfile. cbn [default rows_text id].
      rewrite append_nil_r, Hrow, !append_assoc. reflexivity.
Qed.

End Glued.

(** ** The further properties on the bench *)

Lemma bench_repr_one_line (x : Z) : one_line (Bench.repr x) = true.
Proof.
  unfold Bench.repr.
  pose proof (one_line_str (x / 1000)) as H1.
  pose proof (one_line_zero_padded 3 (x mod 1000)) as H2.
  unfold one_line in *. rewrite !all_chars_app, H1, H2. reflexivity.
Qed.

Lemma flush_then_resume_witness :
  complete_lines (default EmptyString (Bench.no_log !! "out/test.csv")) = true /\
  plain_sample Bench.repr Bench.sample_b = true /\
  get_test_id
    (write_to_csv Bench.repr csv_header ([Bench.sample_a] ++ [Bench.sample_b])
       "out/test.csv" Bench.no_log) "out/test.csv"
  = Py.Ok (test_id Bench.sample_b + 1).
Proof.
  assert (H1 : complete_lines
                 (default EmptyString (Bench.no_log !! "out/test.csv")) = true)
    by (vm_compute; reflexivity).
  assert (H2 : plain_sample Bench.repr Bench.sample_b = true)
    by (vm_compute; reflexivity).
  split; [exact H1 |]. split; [exact H2 |].
  exact (flush_then_resume Z Bench.repr csv_header [Bench.sample_a]
           Bench.sample_b "out/test.csv" Bench.no_log H1 H2).
Defined.

Lemma log_stays_complete_witness :
  complete_lines (default EmptyString (Bench.header_log !! "out/test.csv")) = true /\
  exists content,
    write_to_csv Bench.repr csv_header [Bench.sample_a] "out/test.csv"
      Bench.header_log !! "out/test.csv" = Some content /\
    complete_lines content = true.
Proof.
  assert (H1 : complete_lines
                 (default EmptyString (Bench.header_log !! "out/test.csv")) = true)
    by (vm_compute; reflexivity).
  split; [exact H1 |].
  exact (log_stays_complete Z Bench.repr csv_header [Bench.sample_a]
           "out/test.csv" Bench.header_log H1).
Defined.

Lemma log_line_count_witness :
  complete_lines (default EmptyString (Bench.no_log !! "out/test.csv")) = true /\
  forallb (plain_sample Bench.repr) [Bench.sample_a; Bench.sample_b] = true /\
  exists content,
    write_to_csv Bench.repr csv_header [Bench.sample_a; Bench.sample_b]
      "out/test.csv" Bench.no_log !! "out/test.csv" = Some content /\
    length (Py.readlines content)
    = (match Bench.no_log !! "out/test.csv" with
       | None => 1
       | Some old => length (Py.readlines old)
       end + length [Bench.sample_a; Bench.sample_b])%nat.
Proof.
  assert (H1 : complete_lines
                 (default EmptyString (Bench.no_log !! "out/test.csv")) = true)
    by (vm_compute; reflexivity).
  assert (H2 : forallb (plain_sample Bench.repr)
                 [Bench.sample_a; Bench.sample_b] = true)
    by (vm_compute; reflexivity).
  split; [exact H1 |]. split; [exact H2 |].
  exact (log_line_count Z Bench.repr [Bench.sample_a; Bench.sample_b]
           "out/test.csv" Bench.no_log H1 H2).
Defined.

Lemma restart_continues_numbering_witness :
  exists fs',
    Bench.run "test" Bench.two_sensors false "out" Bench.no_log
      (events_of_rounds [[Bench.r1; Bench.r2]] ++ map to_event [Bench.r3]
       ++ Interrupt :: [])
    = Exit 0 fs' /\
    get_test_id fs' (log_path "out" "test") = Py.Ok 3.
Proof.
  assert (H1 : Bench.two_sensors <> []) by discriminate.
  assert (H2 : create_ina_map Bench.two_sensors = Py.Ok Bench.registry)
    by reflexivity.
  assert (H3 : get_test_id Bench.no_log (log_path "out" "test") = Py.Ok 1)
    by reflexivity.
  assert (H4 : complete_lines
                 (default EmptyString (Bench.no_log !! log_path "out" "test")) = true)
    by (vm_compute; reflexivity).
  assert (H5 : forallb (fun item : string * INA219 => one_line (fst item))
                 Bench.registry = true) by (vm_compute; reflexivity).
  assert (H6 : Forall (fun r => length r = length Bench.registry)
                 [[Bench.r1; Bench.r2]]) by (repeat constructor).
  assert (H7 : (length [Bench.r3] < length Bench.registry)%nat) by (cbn; lia).
  assert (H8 : [[Bench.r1; Bench.r2]] <> [] \/ [Bench.r3] <> [])
    by (left; discriminate).
  destruct (restart_continues_numbering Z Bench.repr Bench.fromtimestamp
              bench_repr_one_line "test" "out" Bench.two_sensors false
              Bench.no_log Bench.registry 1 [[Bench.r1; Bench.r2]] [Bench.r3] []
              H1 H2 H3 H4 H5 H6 H7 H8) as (fs' & Hrun & Hid & _).
  exists fs'. split; [exact Hrun | exact Hid].
Defined.

Lemma cancel_before_first_sample_witness :
  Bench.two_sensors <> [] /\
  create_ina_map Bench.two_sensors = Py.Ok Bench.registry /\
  Bench.no_log !! log_path "out" "test" = None /\
  Bench.run "test" Bench.two_sensors false "out" Bench.no_log [Interrupt]
  = Exit 0 (<[log_path "out" "test" := Csv.writerow csv_header]> Bench.no_log) /\
  Bench.run "test" Bench.two_sensors false "out"
    (<[log_path "out" "test" := Csv.writerow csv_header]> Bench.no_log)
    [to_event Bench.r1; Interrupt]
  = Uncaught Py.ValueError
      (<[log_path "out" "test" := Csv.writerow csv_header]> Bench.no_log).
Proof.
  assert (H1 : Bench.two_sensors <> []) by discriminate.
  assert (H2 : create_ina_map Bench.two_sensors = Py.Ok Bench.registry)
    by reflexivity.
  assert (H3 : Bench.no_log !! log_path "out" "test" = None)
    by (vm_compute; reflexivity).
  split; [exact H1 |]. split; [exact H2 |]. split; [exact H3 |].
  exact (cancel_before_first_sample Z Bench.repr Bench.fromtimestamp
           "test" "out" Bench.two_sensors false Bench.no_log Bench.registry
           [] [to_event Bench.r1; Interrupt] H1 H2 H3).
Defined.

Lemma bad_address_is_fatal_witness :
  Exists (fun t => Py.int_of_str 16 (snd t) = None) Bench.bad_address /\
  create_ina_map Bench.bad_address = Py.Raise Py.ValueError /\
  Bench.run "test" Bench.bad_address false "out" Bench.no_log [Interrupt]
  = Uncaught Py.ValueError Bench.no_log.
Proof.
  assert (H : Exists (fun t => Py.int_of_str 16 (snd t) = None) Bench.bad_address).
  { apply Exists_cons_tl, Exists_cons_hd. vm_compute. reflexivity. }
  split; [exact H |].
  exact (bad_address_is_fatal Z Bench.repr Bench.fromtimestamp "test" "out"
           Bench.bad_address false Bench.no_log [Interrupt] H).
Defined.

Lemma registry_order_witness :
  exists reg,
    create_ina_map Bench.repeated_label = Py.Ok reg /\
    map fst reg = first_occurrences (map fst Bench.repeated_label) /\
    first_occurrences (map fst Bench.repeated_label) = ["a"; "b"].
Proof.
  eexists. split; [vm_compute; reflexivity |]. split; [| vm_compute; reflexivity].
  apply (proj1 (registry_order Bench.repeated_label _ ltac:(vm_compute; reflexivity))).
Defined.

Lemma registry_mirrors_distinct_entries_witness :
  NoDup (map fst Bench.two_sensors) /\
  create_ina_map Bench.two_sensors = Py.Ok Bench.registry /\
  Forall2 (fun t e => fst e = fst t /\
                      Py.int16 (snd t) = Py.Ok (address (snd e)) /\
                      snd e = create_ina (address (snd e)))
    Bench.two_sensors Bench.registry.
Proof.
  assert (H1 : NoDup (map fst Bench.two_sensors)).
  { cbn. apply NoDup_cons. split.
    - rewrite list_elem_of_singleton. discriminate.
    - apply NoDup_singleton. }
  assert (H2 : create_ina_map Bench.two_sensors = Py.Ok Bench.registry)
    by reflexivity.
  split; [exact H1 |]. split; [exact H2 |].
  exact (registry_mirrors_distinct_entries Bench.two_sensors Bench.registry H1 H2).
Defined.

Lemma buffer_labels_cycle_witness :
  exists j buffer,
    poll_loop Bench.fromtimestamp 5 Bench.registry 1 []
      (events_of_rounds [[Bench.r1; Bench.r2]] ++ map to_event [Bench.r3]
       ++ Interrupt :: [])
    = Raised Py.KeyboardInterrupt j buffer /\
    map sensor_label buffer = ["a"; "b"; "a"].
Proof.
  assert (H1 : Bench.registry <> []) by discriminate.
  assert (H2 : Forall (fun r => length r = length Bench.registry)
                 [[Bench.r1; Bench.r2]]) by (repeat constructor).
  assert (H3 : (length [Bench.r3] < length Bench.registry)%nat) by (cbn; lia).
  destruct (buffer_labels_cycle Z Bench.fromtimestamp Bench.registry 1
              [[Bench.r1; Bench.r2]] [Bench.r3] [] H1 H2 H3)
    as (j & buffer & Hloop & Hlabels).
  exists j, buffer. split; [exact Hloop | exact Hlabels].
Defined.

Lemma cancel_before_first_sample_keeps_log_witness :
  Bench.run "test" Bench.two_sensors false "out" Bench.cut_log [Interrupt]
  = Exit 0 Bench.cut_log.
Proof.
  assert (H1 : Bench.two_sensors <> []) by discriminate.
  assert (H2 : create_ina_map Bench.two_sensors = Py.Ok Bench.registry)
    by reflexivity.
  assert (H3 : Bench.cut_log !! log_path "out" "test"
               = Some (Bench.header_text +:+ "4,a,truncated"))
    by (vm_compute; reflexivity).
  assert (H4 : get_test_id Bench.cut_log (log_path "out" "test") = Py.Ok 5)
    by (vm_compute; reflexivity).
  exact (cancel_before_first_sample_keeps_log Z Bench.repr Bench.fromtimestamp
           "test" "out" Bench.two_sensors false Bench.cut_log Bench.registry 5
           _ [] H1 H2 H3 H4).
Defined.

Lemma formatted_time_injective_witness :
  datetime_ok (Bench.fromtimestamp 1000000) /\
  datetime_ok (Bench.fromtimestamp 86401000000) /\
  convert_to_datetime Bench.fromtimestamp 1000000
  = convert_to_datetime Bench.fromtimestamp 86401000000 /\
  Bench.fromtimestamp 1000000 = Bench.fromtimestamp 86401000000.
Proof.
  assert (H1 : datetime_ok (Bench.fromtimestamp 1000000))
    by (unfold datetime_ok; vm_compute; intuition discriminate).
  assert (H2 : datetime_ok (Bench.fromtimestamp 86401000000))
    by (unfold datetime_ok; vm_compute; intuition discriminate).
  assert (H3 : convert_to_datetime Bench.fromtimestamp 1000000
               = convert_to_datetime Bench.fromtimestamp 86401000000)
    by (vm_compute; reflexivity).
  split; [exact H1 |]. split; [exact H2 |]. split; [exact H3 |].
  exact (formatted_time_injective Z Bench.fromtimestamp _ _ H1 H2 H3).
Defined.

Lemma glued_row_repeats_identifier_witness :
  get_test_id Bench.cut_log "out/test.csv" = Py.Ok (4 + 1) /\
  get_test_id
    (write_to_csv Bench.repr csv_header [Bench.sample_a] "out/test.csv"
       Bench.cut_log) "out/test.csv"
  = Py.Ok (4 + 1).
Proof.
  assert (H1 : complete_lines Bench.header_text = true) by reflexivity.
  assert (H2 : one_line "a,truncated" = true) by reflexivity.
  assert (H3 : Bench.cut_log !! "out/test.csv"
               = Some (Bench.header_text +:+ Py.str 4 +:+ "," +:+ "a,truncated"))
    by (vm_compute; reflexivity).
  assert (H4 : plain_sample Bench.repr Bench.sample_a = true)
    by (vm_compute; reflexivity).
  exact (glued_row_repeats_identifier Z Bench.repr csv_header Bench.sample_a
           "out/test.csv" Bench.header_text "a,truncated" 4 Bench.cut_log
           H1 H2 H3 H4).
Defined.
